(** * pwv_kpno: the end user functions

    A shallow embedding of [pwv_kpno/end_user_functions.py]:
    [measured_pwv], [modeled_pwv] and [transmission], together with the
    parts of the Python runtime, NumPy and astropy they call.

    Floating point numbers are embedded as rationals ([Q]); equality of
    computed numbers is [Qeq].  Everything the functions read from disk is
    gathered in a [World]; the functions run in a state and error monad
    that threads the world and a log of the accesses made to it. *)

From Stdlib Require Import ZArith QArith Qround List String Ascii Bool Lia Lqa.
From Stdlib Require Import Sorted SetoidList.
Import ListNotations.

Local Open Scope string_scope.
Local Open Scope list_scope.
Local Open Scope Z_scope.

(** ** Python values *)

(** The fields of [datetime.datetime] that the package reads. *)
Record datetime := mkdatetime {
  dt_year : Z;
  dt_month : Z;
  dt_day : Z;
  dt_hour : Z;
  dt_minute : Z;
  dt_second : Z
}.

(** The values a caller can pass for [year], [month], [day], [hour],
    [date] and [airmass]. *)
Inductive pyobj :=
| PyNone
| PyBool (b : bool)
| PyInt (z : Z)
| PyFloat (q : Q)
| PyStr (s : string)
| PyDatetime (d : datetime).

Inductive exn :=
| TypeError (msg : string)
| ValueError (msg : string)
| IndexError (msg : string)
| KeyError (msg : string)
| FileNotFoundError (path : string).

(** [x is None] *)
Definition is_None (v : pyobj) : bool :=
  match v with PyNone => true | _ => false end.

(** [isinstance(x, int)]: [bool] is a subclass of [int]. *)
Definition isinstance_int (v : pyobj) : bool :=
  match v with PyInt _ | PyBool _ => true | _ => false end.

(** [isinstance(x, (float, int))] *)
Definition isinstance_float_int (v : pyobj) : bool :=
  match v with PyFloat _ | PyInt _ | PyBool _ => true | _ => false end.

(** [isinstance(x, datetime)] *)
Definition isinstance_datetime (v : pyobj) : bool :=
  match v with PyDatetime _ => true | _ => false end.

(** The truth value of an object, as tested by [if x:]. *)
Definition truthy (v : pyobj) : bool :=
  match v with
  | PyNone => false
  | PyBool b => b
  | PyInt z => negb (z =? 0)
  | PyFloat q => negb (Qeq_bool q 0)
  | PyStr s => negb (String.eqb s EmptyString)
  | PyDatetime _ => true
  end.

(** [n == v] for an integer attribute [n] of a datetime. *)
Definition int_eq_obj (n : Z) (v : pyobj) : bool :=
  match v with
  | PyInt z => n =? z
  | PyBool b => n =? (if b then 1 else 0)
  | PyFloat q => Qeq_bool (inject_Z n) q
  | _ => false
  end.

(** The number a numeric object stands for in arithmetic. *)
Definition num_value (v : pyobj) : Q :=
  match v with
  | PyInt z => inject_Z z
  | PyBool b => if b then 1%Q else 0%Q
  | PyFloat q => q
  | _ => 0%Q
  end.

(** ** Strings *)

(** [s.endswith(suffix)] *)
Definition endswith (s suffix : string) : bool :=
  let n := String.length s in
  let k := String.length suffix in
  (k <=? n)%nat && String.eqb (substring (n - k) k s) suffix.

(** [s.split(sep)] for a separator of one character. *)
Fixpoint split (sep : ascii) (s : string) : list string :=
  match s with
  | EmptyString => [EmptyString]
  | String a rest =>
      if Ascii.eqb a sep then EmptyString :: split sep rest
      else match split sep rest with
           | h :: t => String a h :: t
           | [] => [String a EmptyString]
           end
  end.

(** [os.path.basename]: what follows the last slash. *)
Definition basename (p : string) : string :=
  last (split "/"%char p) EmptyString.

(** [os.path.join(a, b)] for a relative [b]. *)
Definition path_join (a b : string) : string :=
  if endswith a "/" then (a ++ b)%string else (a ++ "/" ++ b)%string.

Definition ATM_MOD_DIR : string := "./atm_models".
Definition PWV_TAB_DIR : string := "./pwv_tables/".

(** ** The platform

    [datetime.fromtimestamp] and [datetime.timestamp] depend on the local
    time zone of the machine, and [float] is the interpreter's parser. *)
Class Platform := {
  fromtimestamp : Q -> datetime;
  timestamp : datetime -> Q;
  float_of_str : string -> option Q
}.

(** *** A platform whose local time zone is UTC *)

(** Days since 1970-01-01 to (year, month, day), proleptic Gregorian. *)
Definition civil_from_days (z : Z) : Z * Z * Z :=
  let z := z + 719468 in
  let era := z / 146097 in
  let doe := z - era * 146097 in
  let yoe := (doe - doe / 1460 + doe / 36524 - doe / 146096) / 365 in
  let y := yoe + era * 400 in
  let doy := doe - (365 * yoe + yoe / 4 - yoe / 100) in
  let mp := (5 * doy + 2) / 153 in
  let d := doy - (153 * mp + 2) / 5 + 1 in
  let m := if mp <? 10 then mp + 3 else mp - 9 in
  ((if m <=? 2 then y + 1 else y), m, d).

Definition days_from_civil (y m d : Z) : Z :=
  let y := if m <=? 2 then y - 1 else y in
  let era := y / 400 in
  let yoe := y - era * 400 in
  let doy := (153 * (if 2 <? m then m - 3 else m + 9) + 2) / 5 + d - 1 in
  let doe := yoe * 365 + yoe / 4 - yoe / 100 + doy in
  era * 146097 + doe - 719468.

Definition utc_fromtimestamp (t : Q) : datetime :=
  let s := Qfloor t in
  let sod := s mod 86400 in
  let '(y, m, d) := civil_from_days (s / 86400) in
  mkdatetime y m d (sod / 3600) ((sod mod 3600) / 60) (sod mod 60).

Definition utc_timestamp (d : datetime) : Q :=
  inject_Z (days_from_civil (dt_year d) (dt_month d) (dt_day d) * 86400
            + dt_hour d * 3600 + dt_minute d * 60 + dt_second d).

Definition digit_of (c : ascii) : option Z :=
  let n := Z.of_nat (nat_of_ascii c) in
  if (48 <=? n) && (n <=? 57) then Some (n - 48) else None.

(** Reads a run of decimal digits: the number read and ten to the number
    of digits. *)
Fixpoint digits (s : string) (acc pow : Z) : option (Z * Z) :=
  match s with
  | EmptyString => Some (acc, pow)
  | String c rest =>
      match digit_of c with
      | Some d => digits rest (10 * acc + d) (10 * pow)
      | None => None
      end
  end.

(** [float(s)] on plain decimal literals such as [12] and [04.5]. *)
Definition decimal_float (s : string) : option Q :=
  match split "."%char s with
  | [i] =>
      if String.eqb i EmptyString then None
      else match digits i 0 1 with
           | Some (n, _) => Some (inject_Z n)
           | None => None
           end
  | [i; f] =>
      if String.eqb i EmptyString && String.eqb f EmptyString then None
      else match digits i 0 1, digits f 0 1 with
           | Some (n, _), Some (m, p) =>
               Some (inject_Z n + inject_Z m / inject_Z p)%Q
           | _, _ => None
           end
  | _ => None
  end.

Definition utc_platform : Platform :=
  {| fromtimestamp := utc_fromtimestamp;
     timestamp := utc_timestamp;
     float_of_str := decimal_float |}.

(** ** Tables and the world *)

(** An astropy table with a [date] column of type [D] and the remaining
    columns of a row gathered in a value of type [V]. *)
Record Table (D V : Type) := mkTable {
  colnames : list string;
  units : list (string * string);
  rows : list (D * V)
}.
Arguments mkTable {D V} _ _ _.
Arguments colnames {D V} _.
Arguments units {D V} _.
Arguments rows {D V} _.

(** A transmission model file: rows of (wavelength, transmission). *)
Definition AtmTable := list (Q * Q).

(** What is on disk: the two master tables of [PWV_TAB_DIR] as written by
    the ingestion code (dates are UNIX timestamps), and the entries of
    [ATM_MOD_DIR] in the order [os.listdir] yields them. *)
Record World := mkWorld {
  measured_pwv_csv : option (Table Q (list Q));
  modeled_pwv_csv : option (Table Q Q);
  atm_models : option (list (string * AtmTable))
}.

Inductive event :=
| EvRead (path : string)
| EvListdir (path : string).

Record State := mkState {
  world : World;
  log : list event
}.

(** ** The monad *)

Definition M (A : Type) : Type := State -> (exn + A) * State.

Definition ret {A} (a : A) : M A := fun s => (inr a, s).

Definition raise {A} (e : exn) : M A := fun s => (inl e, s).

Definition bind {A B} (m : M A) (f : A -> M B) : M B :=
  fun s => match m s with
           | (inl e, s') => (inl e, s')
           | (inr a, s') => f a s'
           end.

Notation "x <- m ;; k" := (bind m (fun x => k))
  (at level 61, m at next level, right associativity).

Definition access {A} (ev : event) (get : World -> option A) (e : exn) : M A :=
  fun s =>
    let s' := mkState (world s) (log s ++ [ev]) in
    match get (world s) with
    | Some a => (inr a, s')
    | None => (inl e, s')
    end.

(** ** File access *)

(** [Table.read(os.path.join(PWV_TAB_DIR, 'measured_pwv.csv'))] *)
Definition read_measured_csv : M (Table Q (list Q)) :=
  let path := path_join PWV_TAB_DIR "measured_pwv.csv" in
  access (EvRead path) measured_pwv_csv (FileNotFoundError path).

(** [Table.read(os.path.join(PWV_TAB_DIR, 'modeled_pwv.csv'))] *)
Definition read_modeled_csv : M (Table Q Q) :=
  let path := path_join PWV_TAB_DIR "modeled_pwv.csv" in
  access (EvRead path) modeled_pwv_csv (FileNotFoundError path).

(** [os.listdir(ATM_MOD_DIR)] *)
Definition listdir_atm_models : M (list string) :=
  access (EvListdir ATM_MOD_DIR)
         (fun w => option_map (map fst) (atm_models w))
         (FileNotFoundError ATM_MOD_DIR).

Fixpoint find_file (name : string) (entries : list (string * AtmTable))
  : option AtmTable :=
  match entries with
  | [] => None
  | (n, t) :: rest => if String.eqb n name then Some t else find_file name rest
  end.

(** [Table.read(file_path)] for a file of [ATM_MOD_DIR]. *)
Definition read_atm_model (file : string) (file_path : string) : M AtmTable :=
  access (EvRead file_path)
         (fun w => match atm_models w with
                   | Some entries => find_file file entries
                   | None => None
                   end)
         (FileNotFoundError file_path).

(** ** Table operations *)

Definition date_col {D V} (t : Table D V) : list D := map fst (rows t).

Definition value_col {D V} (t : Table D V) : list V := map snd (rows t).

(** [t['date'] = col] *)
Definition set_date_col {D D' V} (t : Table D V) (col : list D') : Table D' V :=
  mkTable (colnames t) (units t) (combine col (value_col t)).

Fixpoint assoc_set (k v : string) (l : list (string * string))
  : list (string * string) :=
  match l with
  | [] => [(k, v)]
  | (k', v') :: rest =>
      if String.eqb k' k then (k', v) :: rest else (k', v') :: assoc_set k v rest
  end.

(** [t[name].unit = u] *)
Definition set_unit {D V} (name u : string) (t : Table D V) : Table D V :=
  mkTable (colnames t) (assoc_set name u (units t)) (rows t).

(** [t[idx]] for an array of row numbers. *)
Fixpoint take_rows {A} (l : list A) (idx : list nat) : option (list A) :=
  match idx with
  | [] => Some []
  | i :: rest =>
      match nth_error l i, take_rows l rest with
      | Some r, Some rs => Some (r :: rs)
      | _, _ => None
      end
  end.

Definition table_getitem {D V} (t : Table D V) (idx : list nat) : M (Table D V) :=
  match take_rows (rows t) idx with
  | Some rs => ret (mkTable (colnames t) (units t) rs)
  | None => raise (IndexError "index out of range")
  end.

(** ** NumPy *)

(** [np.vectorize(f)(col)]: the function is tried on the first element to
    find the type of the result, so a column of size 0 is refused. *)
Definition np_vectorize {A B} (f : A -> B) (col : list A) : M (list B) :=
  match col with
  | [] => raise (ValueError
            "cannot call `vectorize` on size 0 inputs unless `otypes` is set")
  | _ => ret (map f col)
  end.

(** [np.logical_and(a, b)] on arrays of one length. *)
Definition np_logical_and (a b : list bool) : list bool :=
  map (fun p => fst p && snd p) (combine a b).

Fixpoint where_from (i : nat) (indx : list bool) : list nat :=
  match indx with
  | [] => []
  | b :: rest => if b then i :: where_from (S i) rest else where_from (S i) rest
  end.

(** [np.where(indx)[0]] *)
Definition np_where (indx : list bool) : list nat := where_from 0 indx.

Definition Qltb (x y : Q) : bool := negb (Qle_bool y x).

(** The linear search of [np.interp]:
    [for (i = 1; i < len && key >= arr[i]; ++i); return i - 1;]
    [scan key (tl arr) 0] is that [i - 1]. *)
Fixpoint scan (key : Q) (arr : list Q) (i : nat) : nat :=
  match arr with
  | [] => i
  | a :: rest => if Qle_bool a key then scan key rest (S i) else i
  end.

(** The index search of [np.interp]: [len] above the last sample, [-1]
    below the first, and otherwise the index [j] of the sample interval
    holding [key].  NumPy finds [j] by a linear search in short arrays and
    by bisection in long ones; on increasing samples both give the [j]
    with [arr[j] <= key < arr[j+1]].  The linear search is the one
    embedded. *)
Definition binary_search (key : Q) (arr : list Q) : Z :=
  if Qltb (last arr 0%Q) key then Z.of_nat (List.length arr)
  else if Qltb key (hd 0%Q arr) then -1
  else Z.of_nat (scan key (tl arr) 0).

Definition item (l : list Q) (j : Z) : Q := nth (Z.to_nat j) l 0%Q.

(** The value of [np.interp] at an index [j] the search found inside the
    samples: the last sample, a sample hit exactly, or the chord from
    sample [j] to sample [j + 1].  The chord is computed here in exact
    rational arithmetic, where NumPy rounds each operation to a double:
    what is proved of a chord is proved of the exact value, and the
    rounded one can differ from it in the last digits, also beyond the
    two sample values.  The first two cases copy a sample and are the
    same in doubles. *)
Definition interval_value (x : Q) (xp fp : list Q) (j : Z) : Q :=
  let lenxp := Z.of_nat (List.length xp) in
  if j =? lenxp - 1 then item fp j
  else if Qeq_bool (item xp j) x then item fp j
  else
    let slope := ((item fp (j + 1) - item fp j)
                  / (item xp (j + 1) - item xp j))%Q in
    (slope * (x - item xp j) + item fp j)%Q.

(** The value [np.interp(x, xp, fp)] on a non-empty [xp], with the default
    [left = fp[0]] and [right = fp[-1]]. *)
Definition interp_value (x : Q) (xp fp : list Q) : Q :=
  let lenxp := Z.of_nat (List.length xp) in
  let lval := item fp 0 in
  let rval := item fp (lenxp - 1) in
  if lenxp =? 1 then
    if Qltb x (item xp 0) then lval
    else if Qltb (item xp 0) x then rval
    else item fp 0
  else
    let j := binary_search x xp in
    if j =? -1 then lval
    else if j =? lenxp then rval
    else interval_value x xp fp j.

(** [np.interp(x, xp, fp)] *)
Definition np_interp (x : Q) (xp fp : list Q) : M Q :=
  if (List.length xp =? 0)%nat then
    raise (ValueError "array of sample points is empty")
  else if negb (List.length fp =? List.length xp)%nat then
    raise (ValueError "fp and xp are not of the same length.")
  else ret (interp_value x xp fp).

(** ** Dictionaries keyed by floats, in insertion order *)

Definition dict (V : Type) := list (Q * V).

(** [d[k] = v]: a key already present keeps its place. *)
Fixpoint dict_set {V} (k : Q) (v : V) (d : dict V) : dict V :=
  match d with
  | [] => [(k, v)]
  | (k', v') :: rest =>
      if Qeq_bool k' k then (k', v) :: rest else (k', v') :: dict_set k v rest
  end.

Fixpoint dict_get {V} (k : Q) (d : dict V) : option V :=
  match d with
  | [] => None
  | (k', v) :: rest => if Qeq_bool k' k then Some v else dict_get k rest
  end.

(** [d.keys()], also the order of [for k in d]. *)
Definition keys {V} (d : dict V) : list Q := map fst d.

(** [min(l)]: the first of the least elements. *)
Definition py_min (l : list Q) : option Q :=
  match l with
  | [] => None
  | x :: rest => Some (fold_left (fun m y => if Qltb y m then y else m) rest x)
  end.

(** ** The end user functions *)

Section EndUserFunctions.

Context {P : Platform}.

(** The argument checks of [measured_pwv] (lines 117-139) and of
    [modeled_pwv] (lines 196-218); the two blocks are the same text. *)
Definition check_date_args (year month day hour : pyobj) : M unit :=
  if negb (isinstance_int year || is_None year) then
    raise (TypeError "Argument 'year' (pos 1) must be an integer.")
  else if is_None year && negb (is_None month) then
    raise (ValueError
             "Argument 'month' (pos 2) specified without 'year' (pos 1).")
  else if negb (isinstance_int month || is_None month) then
    raise (TypeError "Argument 'month' (pos 2) must be an integer.")
  else if is_None month && negb (is_None day) then
    raise (ValueError
             "Argument 'day' (pos 3) specified without 'month' (pos 2).")
  else if negb (isinstance_int day || is_None day) then
    raise (TypeError "Argument 'day' (pos 2) must be an integer.")
  else if is_None day && negb (is_None hour) then
    raise (ValueError
             "Argument 'hour' (pos 4) specified without 'day' (pos 3).")
  else if negb (isinstance_int hour || is_None hour) then
    raise (TypeError "Argument 'hour' (pos 4) must be an integer.")
  else ret tt.

(** One refinement step: [if field: indx = np.logical_and(indx, ...)]. *)
Definition refine_step {V} (pwv_data : Table datetime V)
    (attr : datetime -> Z) (field : pyobj) (indx : list bool)
  : M (list bool) :=
  if truthy field then
    test <- np_vectorize (fun x => int_eq_obj (attr x) field)
                         (date_col pwv_data) ;;
    ret (np_logical_and indx test)
  else ret indx.

(** The refinement of [measured_pwv] (lines 153-172) and of [modeled_pwv]
    (lines 228-247); again the same text in both. *)
Definition refine_by_date {V} (pwv_data : Table datetime V)
    (year month day hour : pyobj) : M (Table datetime V) :=
  if truthy year then
    indx <- np_vectorize (fun x => int_eq_obj (dt_year x) year)
                         (date_col pwv_data) ;;
    indx <- refine_step pwv_data dt_month month indx ;;
    indx <- refine_step pwv_data dt_day day indx ;;
    indx <- refine_step pwv_data dt_hour hour indx ;;
    table_getitem pwv_data (np_where indx)
  else ret pwv_data.

(** Lines 144-146 and 223-225: the [date] column becomes datetimes. *)
Definition convert_dates {V} (pwv_data : Table Q V) : M (Table datetime V) :=
  dates <- np_vectorize fromtimestamp (date_col pwv_data) ;;
  ret (set_unit "date" "UTC" (set_date_col pwv_data dates)).

Definition measured_pwv (year month day hour : pyobj)
  : M (Table datetime (list Q)) :=
  _ <- check_date_args year month day hour ;;
  pwv_data <- read_measured_csv ;;
  pwv_data <- convert_dates pwv_data ;;
  let pwv_data :=
    fold_left (fun t colname =>
                 if negb (String.eqb colname "date")
                 then set_unit colname "mm" t else t)
              (colnames pwv_data) pwv_data in
  refine_by_date pwv_data year month day hour.

Definition modeled_pwv (year month day hour : pyobj)
  : M (Table datetime Q) :=
  _ <- check_date_args year month day hour ;;
  pwv_data <- read_modeled_csv ;;
  pwv_data <- convert_dates pwv_data ;;
  let pwv_data := set_unit "pwv" "mm" pwv_data in
  refine_by_date pwv_data year month day hour.

(** [date.timestamp()], called on datetimes only. *)
Definition obj_timestamp (date : pyobj) : Q :=
  match date with
  | PyDatetime d => timestamp d
  | _ => 0%Q
  end.

(** Lines 275-277: the PWV level at zenith. *)
Definition zenith_pwv (date : pyobj) : M Q :=
  pwv_model <- read_modeled_csv ;;
  np_interp (obj_timestamp date) (date_col pwv_model) (value_col pwv_model).

(** Lines 279-280: the PWV level along the line of sight. *)
Definition los_pwv (date airmass : pyobj) : M Q :=
  pwv_z <- zenith_pwv date ;;
  ret (pwv_z * num_value airmass)%Q.

(** [float(os.path.basename(file).split("_")[3])] *)
Definition pwv_of_file (file : string) : M Q :=
  match nth_error (split "_"%char (basename file)) 3 with
  | None => raise (IndexError "list index out of range")
  | Some field =>
      match float_of_str field with
      | None => raise (ValueError "could not convert string to float")
      | Some pwv_value => ret pwv_value
      end
  end.

(** Lines 283-288: the loop over the files of [ATM_MOD_DIR]. *)
Fixpoint read_atm_mods (files : list string) (atm_mods : dict AtmTable)
  : M (dict AtmTable) :=
  match files with
  | [] => ret atm_mods
  | file :: rest =>
      if endswith file ".csv" then
        pwv_value <- pwv_of_file file ;;
        let file_path := path_join ATM_MOD_DIR file in
        tab <- read_atm_model file file_path ;;
        read_atm_mods rest (dict_set pwv_value tab atm_mods)
      else read_atm_mods rest atm_mods
  end.

Definition load_atm_mods : M (dict AtmTable) :=
  files <- listdir_atm_models ;;
  read_atm_mods files [].

(** [[atm_mods[pwv]['transmission'][i] for pwv in atm_mods]] *)
Fixpoint trans_at (i : nat) (atm_mods : dict AtmTable) : M (list Q) :=
  match atm_mods with
  | [] => ret []
  | (_, tab) :: rest =>
      match nth_error (map snd tab) i with
      | None => raise (IndexError "index out of range")
      | Some t =>
          ts <- trans_at i rest ;;
          ret (t :: ts)
      end
  end.

(** Lines 295-301: the loop over the wavelengths, [i] counting them. *)
Fixpoint calc_rows (atm_mods : dict AtmTable) (pwv_los : Q) (i : nat)
    (wavelengths : list Q) (trans_func : AtmTable) : M AtmTable :=
  match wavelengths with
  | [] => ret trans_func
  | wvlngth :: rest =>
      trans <- trans_at i atm_mods ;;
      interp_trans <- np_interp pwv_los (keys atm_mods) trans ;;
      calc_rows atm_mods pwv_los (S i) rest
                (trans_func ++ [(wvlngth, interp_trans)])
  end.

(** Lines 290-303. *)
Definition transmission_curve (atm_mods : dict AtmTable) (pwv_los : Q)
  : M AtmTable :=
  match py_min (keys atm_mods) with
  | None => raise (ValueError "min() arg is an empty sequence")
  | Some k =>
      match dict_get k atm_mods with
      | None => raise (KeyError "key not found")
      | Some tab =>
          let wavelengths := map fst tab in
          calc_rows atm_mods pwv_los 0 wavelengths []
      end
  end.

Definition transmission (date airmass : pyobj) : M AtmTable :=
  if negb (isinstance_datetime date) then
    raise (TypeError "Argument 'date' (pos 1) must be a datetime instance")
  else if negb (isinstance_float_int airmass) then
    raise (TypeError "Argument 'airmass' (pos 2) should be a float instance")
  else
    pwv_los <- los_pwv date airmass ;;
    atm_mods <- load_atm_mods ;;
    transmission_curve atm_mods pwv_los.

End EndUserFunctions.

(** ** What the specification says, in its own words *)

(** *** The series filter *)

(** A timestamp attribute matches a field that is not supplied, and a
    supplied field that it equals. *)
Definition field_matches (field : pyobj) (n : Z) : bool :=
  is_None field || int_eq_obj n field.

Definition matches_fields (year month day hour : pyobj) (x : datetime) : bool :=
  field_matches year (dt_year x) && field_matches month (dt_month x)
  && field_matches day (dt_day x) && field_matches hour (dt_hour x).

(** The subsequence of the rows whose timestamps match every supplied
    field, in the original order. *)
Definition filter_series {V} (year month day hour : pyobj)
    (t : Table datetime V) : Table datetime V :=
  mkTable (colnames t) (units t)
          (filter (fun r => matches_fields year month day hour (fst r))
                  (rows t)).

(** *** The argument errors *)

Definition int_or_None (v : pyobj) : bool := isinstance_int v || is_None v.

Inductive field := Year | Month | Day | Hour.

Definition field_name (f : field) : string :=
  match f with
  | Year => "year" | Month => "month" | Day => "day" | Hour => "hour"
  end.

Definition position (f : field) : string :=
  match f with
  | Year => "1" | Month => "2" | Day => "3" | Hour => "4"
  end.

(** The field that must be supplied for [f] to be. *)
Definition parent_of (f : field) : field :=
  match f with
  | Year => Year | Month => Year | Day => Month | Hour => Day
  end.

(** The first field, in the order month, day, hour, that is supplied
    while its parent is not. *)
Definition dependency_fault (year month day hour : pyobj) : option field :=
  if is_None year && negb (is_None month) then Some Month
  else if is_None month && negb (is_None day) then Some Day
  else if is_None day && negb (is_None hour) then Some Hour
  else None.

(** The first argument, in the order of the positions, that is supplied
    and is not an integer. *)
Definition type_fault (year month day hour : pyobj) : option field :=
  if negb (int_or_None year) then Some Year
  else if negb (int_or_None month) then Some Month
  else if negb (int_or_None day) then Some Day
  else if negb (int_or_None hour) then Some Hour
  else None.

(** The arguments in the positions before [f]. *)
Definition before (f : field) (year month day hour : pyobj) : list pyobj :=
  match f with
  | Year => []
  | Month => [year]
  | Day => [year; month]
  | Hour => [year; month; day]
  end.

Definition quoted (f : field) : string :=
  ("Argument '" ++ field_name f ++ "' (pos " ++ position f ++ ")")%string.

Definition dependency_message (f : field) : string :=
  (quoted f ++ " specified without '" ++ field_name (parent_of f)
   ++ "' (pos " ++ position (parent_of f) ++ ").")%string.

Definition type_message (f : field) : string :=
  (quoted f ++ " must be an integer.")%string.

(** The message starts by naming the argument. *)
Definition names_argument (f : field) (msg : string) : bool :=
  String.prefix ("Argument '" ++ field_name f ++ "' ")%string msg.

(** *** The checks as a table

    The seven checks of the two functions, in the order they are made, as
    a search for the first fault; [error_of] spells the error of each
    fault the way the code does. *)

Inductive fault :=
| TypeFault (f : field)
| DependencyFault (f : field).

Definition first_fault (year month day hour : pyobj) : option fault :=
  if negb (isinstance_int year || is_None year) then Some (TypeFault Year)
  else if is_None year && negb (is_None month) then
    Some (DependencyFault Month)
  else if negb (isinstance_int month || is_None month) then
    Some (TypeFault Month)
  else if is_None month && negb (is_None day) then Some (DependencyFault Day)
  else if negb (isinstance_int day || is_None day) then Some (TypeFault Day)
  else if is_None day && negb (is_None hour) then Some (DependencyFault Hour)
  else if negb (isinstance_int hour || is_None hour) then
    Some (TypeFault Hour)
  else None.

Definition error_of (t : fault) : exn :=
  match t with
  | TypeFault Year => TypeError "Argument 'year' (pos 1) must be an integer."
  | TypeFault Month =>
      TypeError "Argument 'month' (pos 2) must be an integer."
  | TypeFault Day => TypeError "Argument 'day' (pos 2) must be an integer."
  | TypeFault Hour => TypeError "Argument 'hour' (pos 4) must be an integer."
  | DependencyFault Year => ValueError EmptyString
  | DependencyFault Month =>
      ValueError "Argument 'month' (pos 2) specified without 'year' (pos 1)."
  | DependencyFault Day =>
      ValueError "Argument 'day' (pos 3) specified without 'month' (pos 2)."
  | DependencyFault Hour =>
      ValueError "Argument 'hour' (pos 4) specified without 'day' (pos 3)."
  end.

Definition outcome (t : option fault) : exn + unit :=
  match t with
  | Some t => inl (error_of t)
  | None => inr tt
  end.

(** *** Piecewise-linear interpolation *)

Local Open Scope Q_scope.

(** [z] is the value at [x] of the piecewise-linear curve through the
    samples of [series], held flat before the first and after the last. *)
Definition piecewise_linear (series : list (Q * Q)) (x z : Q) : Prop :=
  (forall t0 v0 rest, series = (t0, v0) :: rest -> x <= t0 -> z == v0)
  /\ (forall front tn vn, series = front ++ [(tn, vn)] -> tn <= x -> z == vn)
  /\ (forall front ta va tb vb rest,
         series = front ++ (ta, va) :: (tb, vb) :: rest ->
         ta <= x -> x <= tb ->
         z == va + (x - ta) * (vb - va) / (tb - ta)).

(** The same curve as a function: walk the samples to the interval that
    holds [x]. *)
Fixpoint lin_interp (x : Q) (series : list (Q * Q)) : Q :=
  match series with
  | [] => 0
  | (t0, v0) :: rest =>
      match rest with
      | [] => v0
      | (t1, v1) :: _ =>
          if Qle_bool x t0 then v0
          else if Qle_bool x t1 then v0 + (x - t0) * (v1 - v0) / (t1 - t0)
          else lin_interp x rest
      end
  end.

(** The samples that a set of reference curves gives at wavelength index
    [i]: each level with its curve's transmission there. *)
Definition samples_at (i : nat) (atm_mods : dict AtmTable) : list (Q * Q) :=
  map (fun kv => (fst kv, nth i (map snd (snd kv)) 0)) atm_mods.

Local Close Scope Q_scope.

(** ** Reading without writing *)

(** A computation that leaves the world as it found it, and whose result
    depends on the world alone, not on the log of earlier accesses. *)
Definition reads_only {A} (m : M A) : Prop :=
  forall s,
    world (snd (m s)) = world s
    /\ forall l, fst (m (mkState (world s) l)) = fst (m s).

(** ** Example data *)

(** Two measurements of one day, at 00:00 and at 01:00 UTC of 2011-01-01. *)
Definition midnight_world : World :=
  mkWorld
    (Some (mkTable ["date"; "KITT"] []
                   [(1293840000%Q, [1.5%Q]); (1293843600%Q, [2.5%Q])]))
    (Some (mkTable ["date"; "pwv"] []
                   [(1293840000%Q, 1.5%Q); (1293843600%Q, 2.5%Q)]))
    (Some []).

Definition midnight_state : State := mkState midnight_world [].

(** The two tables as the functions return them when called without
    arguments on a machine in UTC. *)
Definition midnight_measured : Table datetime (list Q) :=
  mkTable ["date"; "KITT"] [("date", "UTC"); ("KITT", "mm")]
          [(mkdatetime 2011 1 1 0 0 0, [1.5%Q]);
           (mkdatetime 2011 1 1 1 0 0, [2.5%Q])].

Definition midnight_modeled : Table datetime Q :=
  mkTable ["date"; "pwv"] [("date", "UTC"); ("pwv", "mm")]
          [(mkdatetime 2011 1 1 0 0 0, 1.5%Q);
           (mkdatetime 2011 1 1 1 0 0, 2.5%Q)].

Definition curve_4 : AtmTable := [(7000%Q, 0.9%Q); (7001%Q, 0.8%Q)].
Definition curve_6 : AtmTable := [(7000%Q, 0.7%Q); (7001%Q, 0.6%Q)].

(** A modeled PWV of 5 mm at all times, and the two reference curves
    listed with the level 6.0 before the level 4.0. *)
Definition world_6_4 : World :=
  mkWorld None
    (Some (mkTable ["date"; "pwv"] [] [(0%Q, 5%Q)]))
    (Some [("atm_trans_mod_6.0_pwv.csv", curve_6);
           ("atm_trans_mod_4.0_pwv.csv", curve_4)]).

(** The same files listed with the level 4.0 first. *)
Definition world_4_6 : World :=
  mkWorld None
    (Some (mkTable ["date"; "pwv"] [] [(0%Q, 5%Q)]))
    (Some [("atm_trans_mod_4.0_pwv.csv", curve_4);
           ("atm_trans_mod_6.0_pwv.csv", curve_6)]).

(** The series [(t0, 5), (t0 + 1000, 15)]. *)
Definition two_point_model (t0 : Q) : Table Q Q :=
  mkTable ["date"; "pwv"] [] [(t0, 5%Q); ((t0 + 1000)%Q, 15%Q)].

Definition noon : datetime := mkdatetime 2011 1 1 12 0 0.

(** ** [update_models] *)

(** The integer an [int] object holds; [True] is 1 and [False] is 0. *)
Definition int_of (v : pyobj) : Z :=
  match v with
  | PyInt z => z
  | PyBool b => if b then 1 else 0
  | _ => 0
  end.

Section UpdateModels.

(** [datetime.now().year], and the two functions that [update_models]
    imports from [create_pwv_models], a module that is not among the
    sources. *)
Variable current_year : Z.
Variable _update_suomi_data : pyobj -> M (list Z).
Variable _update_pwv_model : M unit.

(** Lines 60-92. *)
Definition update_models (year : pyobj) : M (list Z) :=
  if negb (isinstance_int year || is_None year) then
    raise (TypeError "Argument 'year' must be an integer.")
  else if isinstance_int year && (int_of year <? 2010) then
    raise (ValueError "Cannot update models for years prior to 2010")
  else if isinstance_int year && (current_year <? int_of year) then
    raise (ValueError
             "Cannot update models for years greater than current year")
  else
    updated_years <- _update_suomi_data year ;;
    _ <- _update_pwv_model ;;
    ret updated_years.

End UpdateModels.

(** ** What the refinement keeps *)

(** A field that is tested, [if field:], keeps the timestamps whose
    attribute equals it; a field that is None or zero keeps them all. *)
Definition refined_by (field : pyobj) (n : Z) : bool :=
  negb (truthy field) || int_eq_obj n field.

(** The rows lines 153-172 keep: all of them when [year] is None or
    zero, whatever the other fields are. *)
Definition kept (year month day hour : pyobj) (x : datetime) : bool :=
  if truthy year then
    refined_by year (dt_year x) && refined_by month (dt_month x)
    && refined_by day (dt_day x) && refined_by hour (dt_hour x)
  else true.

Definition keep_rows {V} (p : datetime -> bool) (t : Table datetime V)
  : Table datetime V :=
  mkTable (colnames t) (units t) (filter (fun r => p (fst r)) (rows t)).

(** [t[name].unit] *)
Fixpoint assoc_get (k : string) (l : list (string * string)) : option string :=
  match l with
  | [] => None
  | (k', v) :: rest => if String.eqb k' k then Some v else assoc_get k rest
  end.

(** The files of a listing that lines 284-288 read. *)
Definition csv_files (files : list string) : list string :=
  filter (fun file => endswith file ".csv") files.

(** The accesses that reading these files leaves in the log. *)
Definition reads_of (files : list string) : list event :=
  map (fun file => EvRead (path_join ATM_MOD_DIR file)) files.

(** Stand-ins for the two update functions, to run [update_models] on:
    the first reports the year it was asked for and leaves a trace, the
    second does nothing. *)
Definition example_update_data (year : pyobj) : M (list Z) :=
  fun s => (inr (match year with PyInt y => [y] | _ => [] end),
            mkState (world s) (log s ++ [EvListdir "suominet"])).

Definition example_update_model : M unit := ret tt.

(** A computation that accesses nothing: the state comes back as it
    was. *)
Definition keeps_state {A} (m : M A) : Prop := forall s, snd (m s) = s.

(** Two table files without rows. *)
Definition empty_world : World :=
  mkWorld (Some (mkTable ["date"; "KITT"] [] []))
          (Some (mkTable ["date"; "pwv"] [] []))
          (Some []).

(** The reference curves of [world_4_6] as a dictionary. *)
Definition atm_mods_4_6 : dict AtmTable := [(4%Q, curve_4); (6%Q, curve_6)].

Section Levels.

Context {P : Platform}.

(** The PWV level that line 286 reads off a file name, when the name has
    a fourth field and the field is a number. *)
Definition level_of (file : string) : option Q :=
  match nth_error (split "_"%char (basename file)) 3 with
  | Some field => float_of_str field
  | None => None
  end.

End Levels.

(** A directory without reference curves. *)
Definition world_no_csv : World :=
  mkWorld None
    (Some (mkTable ["date"; "pwv"] [] [(0%Q, 5%Q)]))
    (Some [("README", [])]).

(** The curve of 6.0 mm cut to one row. *)
Definition atm_mods_short : dict AtmTable :=
  [(4%Q, curve_4); (6%Q, [(7000%Q, 0.7%Q)])].

(** The two reference curves on different grids, the file of 6.0 mm
    listed first. *)
Definition world_two_grids : World :=
  mkWorld None
    (Some (mkTable ["date"; "pwv"] [] [(0%Q, 5%Q)]))
    (Some [("atm_trans_mod_6.0_pwv.csv", [(8000%Q, 0.7%Q); (8001%Q, 0.6%Q)]);
           ("atm_trans_mod_4.0_pwv.csv", curve_4)]).

(** The world of [world_4_6] with another table of measurements in it. *)
Definition world_4_6_measured : World :=
  mkWorld (measured_pwv_csv midnight_world)
          (modeled_pwv_csv world_4_6) (atm_models world_4_6).

(** ** What [transmission] depends on *)

(** Two worlds with the same modeled PWV series and the same directory
    of reference curves. *)
Definition same_models (w1 w2 : World) : Prop :=
  modeled_pwv_csv w1 = modeled_pwv_csv w2 /\ atm_models w1 = atm_models w2.

(** A computation whose result is decided by the modeled series and the
    reference curves, whatever else the state holds. *)
Definition reads_models_only {A} (m : M A) : Prop :=
  forall s1 s2,
    same_models (world s1) (world s2) ->
    fst (m s1) = fst (m s2)
    /\ same_models (world (snd (m s1))) (world (snd (m s2))).

(** * Properties *)

(** ** The monad *)

Lemma bind_inl {A B} (m : M A) (k : A -> M B) s e s' :
  m s = (inl e, s') -> bind m k s = (inl e, s').
Proof. intros H. unfold bind. now rewrite H. Qed.

Lemma bind_inr {A B} (m : M A) (k : A -> M B) s a s' :
  m s = (inr a, s') -> bind m k s = k a s'.
Proof. intros H. unfold bind. now rewrite H. Qed.

Lemma run_eq {A} (x y : A) : y = x -> x = y.
Proof. intros H. now symmetry. Qed.

(** ** The argument checks *)

Section ArgumentChecks.

Context {P : Platform}.

Lemma measured_pwv_check_fails year month day hour s e :
  check_date_args year month day hour s = (inl e, s) ->
  measured_pwv year month day hour s = (inl e, s).
Proof. intros H. unfold measured_pwv. now apply bind_inl. Qed.

Lemma modeled_pwv_check_fails year month day hour s e :
  check_date_args year month day hour s = (inl e, s) ->
  modeled_pwv year month day hour s = (inl e, s).
Proof. intros H. unfold modeled_pwv. now apply bind_inl. Qed.

Lemma check_fails_both year month day hour s e :
  check_date_args year month day hour s = (inl e, s) ->
  measured_pwv year month day hour s = (inl e, s)
  /\ modeled_pwv year month day hour s = (inl e, s).
Proof.
  intros H. split;
    [now apply measured_pwv_check_fails | now apply modeled_pwv_check_fails].
Qed.

(** An argument is None, an integer, or neither. *)
Lemma arg_cases v :
  (is_None v = true /\ isinstance_int v = false)
  \/ (is_None v = false /\ isinstance_int v = true)
  \/ (is_None v = false /\ isinstance_int v = false).
Proof. destruct v; cbn; auto. Qed.

Ltac arg_kinds year month day hour :=
  destruct (arg_cases year) as [[Hy Hy']|[[Hy Hy']|[Hy Hy']]];
  destruct (arg_cases month) as [[Hm Hm']|[[Hm Hm']|[Hm Hm']]];
  destruct (arg_cases day) as [[Hd Hd']|[[Hd Hd']|[Hd Hd']]];
  destruct (arg_cases hour) as [[Hh Hh']|[[Hh Hh']|[Hh Hh']]].

Ltac rewrite_kinds :=
  repeat match goal with
         | H : is_None _ = _ |- _ => rewrite H
         | H : isinstance_int _ = _ |- _ => rewrite H
         end.

Ltac rewrite_kinds_in Hf :=
  repeat match goal with
         | H : is_None _ = _ |- _ => rewrite H in Hf
         | H : isinstance_int _ = _ |- _ => rewrite H in Hf
         end.

Lemma check_date_args_first_fault year month day hour s :
  check_date_args year month day hour s
  = (outcome (first_fault year month day hour), s).
Proof.
  unfold check_date_args, first_fault.
  repeat match goal with
         | |- (if ?b then _ else _) _ = _ => destruct b; [reflexivity|]
         end.
  reflexivity.
Qed.

Ltac by_kinds year month day hour :=
  arg_kinds year month day hour; rewrite_kinds; cbn [negb andb orb].

(** The checks pass exactly on the calls with no fault of either kind. *)
Lemma check_date_args_passes year month day hour s :
  dependency_fault year month day hour = None ->
  type_fault year month day hour = None ->
  check_date_args year month day hour s = (inr tt, s).
Proof.
  rewrite check_date_args_first_fault.
  unfold dependency_fault, type_fault, first_fault, int_or_None.
  by_kinds year month day hour; intros H1 H2; try discriminate; reflexivity.
Qed.

(** A field supplied without its parent is a fault; it is the first one
    when the arguments before it are integers or None. *)
Lemma dependency_fault_found year month day hour f :
  dependency_fault year month day hour = Some f ->
  exists t, first_fault year month day hour = Some t
            /\ (forallb int_or_None (before f year month day hour) = true ->
                t = DependencyFault f).
Proof.
  unfold dependency_fault, first_fault.
  by_kinds year month day hour; intros Hf; try discriminate;
    injection Hf as <-; eexists; (split; [reflexivity|]);
    unfold before, forallb, int_or_None; rewrite_kinds; cbn [negb andb orb];
    intros Hb; first [discriminate | reflexivity].
Qed.

(** A supplied non-integer is a fault; it is the first one when the
    arguments before it are integers, and otherwise the first fault is
    the first field supplied without its parent. *)
Lemma type_fault_found year month day hour f :
  type_fault year month day hour = Some f ->
  exists t, first_fault year month day hour = Some t
            /\ (forallb isinstance_int (before f year month day hour) = true ->
                t = TypeFault f)
            /\ (forallb isinstance_int (before f year month day hour) = false ->
                exists g, dependency_fault year month day hour = Some g
                          /\ g <> Year /\ t = DependencyFault g).
Proof.
  unfold type_fault, first_fault, dependency_fault, int_or_None.
  by_kinds year month day hour; intros Hf; try discriminate;
    injection Hf as <-; eexists; (split; [reflexivity|]);
    unfold before, forallb; rewrite_kinds; cbn [negb andb orb];
    (split; intros Hb;
     first [ discriminate | reflexivity
           | eexists; split; [reflexivity|split; [discriminate|reflexivity]] ]).
Qed.

Lemma dependency_error_spelled f :
  f <> Year -> error_of (DependencyFault f) = ValueError (dependency_message f).
Proof. destruct f; intros H; first [now elim H | reflexivity]. Qed.

Lemma type_error_spelled f :
  exists msg, error_of (TypeFault f) = TypeError msg
              /\ names_argument f msg = true
              /\ (f <> Day -> msg = type_message f).
Proof.
  destruct f; eexists; (split; [reflexivity|split; [reflexivity|]]);
    intros H; first [reflexivity | now elim H].
Qed.

(** A field supplied without its parent, behind an argument that is
    neither None nor an integer: the first fault is the type fault of
    the first such argument, which stands before the field. *)
Lemma dependency_fault_behind_type_fault year month day hour f :
  dependency_fault year month day hour = Some f ->
  forallb int_or_None (before f year month day hour) = false ->
  exists g, type_fault year month day hour = Some g
            /\ g <> Day
            /\ (List.length (before g year month day hour)
                < List.length (before f year month day hour))%nat
            /\ first_fault year month day hour = Some (TypeFault g).
Proof.
  unfold dependency_fault, type_fault, first_fault, int_or_None.
  by_kinds year month day hour; intros Hf; try discriminate;
    injection Hf as <-;
    unfold before, forallb, int_or_None; rewrite_kinds; cbn [negb andb orb];
    intros Hb; try discriminate;
    eexists; (split; [reflexivity|]);
    (split; [discriminate|]); (split; [cbn; lia | reflexivity]).
Qed.

Lemma type_error_positioned g :
  g <> Day -> error_of (TypeFault g) = TypeError (type_message g).
Proof. destruct g; intros H; first [now elim H | reflexivity]. Qed.

(** C6 (as amended): a call in which month is supplied without year, day
    without month or hour without day fails in both functions, before
    any table is read.  The error is the dependency error naming the
    first such field and its parent whenever the arguments in the
    positions before that field are integers or None; otherwise it is
    the TypeError of the first argument that is neither, an argument in
    a position before that field, with its name and position. *)
Theorem dependency_error_raised year month day hour f s :
  dependency_fault year month day hour = Some f ->
  exists e,
    measured_pwv year month day hour s = (inl e, s)
    /\ modeled_pwv year month day hour s = (inl e, s)
    /\ (forallb int_or_None (before f year month day hour) = true ->
        e = ValueError (dependency_message f))
    /\ (forallb int_or_None (before f year month day hour) = false ->
        exists g,
          type_fault year month day hour = Some g
          /\ (List.length (before g year month day hour)
              < List.length (before f year month day hour))%nat
          /\ e = TypeError (type_message g)).
Proof.
  intros Hf.
  assert (Hnot : f <> Year).
  { unfold dependency_fault in Hf.
    repeat match type of Hf with
           | (if ?b then _ else _) = _ => destruct b
           end; congruence. }
  destruct (dependency_fault_found _ _ _ _ _ Hf) as (t & Ht & Hfirst).
  exists (error_of t).
  assert (Hc : check_date_args year month day hour s = (inl (error_of t), s)).
  { rewrite check_date_args_first_fault, Ht. reflexivity. }
  destruct (check_fails_both _ _ _ _ _ _ Hc) as [H1 H2].
  split; [exact H1|]. split; [exact H2|]. split.
  - intros Hb. rewrite (Hfirst Hb). now apply dependency_error_spelled.
  - intros Hb.
    destruct (dependency_fault_behind_type_fault _ _ _ _ _ Hf Hb)
      as (g & Hg & Hday & Hpos & Hfault).
    exists g. split; [exact Hg|]. split; [exact Hpos|].
    assert (t = TypeFault g) by congruence. subst t.
    now apply type_error_positioned.
Qed.

(** C7 (as amended): a call in which some argument is supplied with a
    non-integer value fails in both functions, before any table is read.
    When the arguments before the first such argument are all integers,
    the error is a TypeError whose message names that argument, with the
    position 1 for year, 2 for month and 4 for hour; otherwise a field is
    supplied without its parent and the dependency error is raised. *)
Theorem type_error_raised year month day hour f s :
  type_fault year month day hour = Some f ->
  exists e,
    measured_pwv year month day hour s = (inl e, s)
    /\ modeled_pwv year month day hour s = (inl e, s)
    /\ (forallb isinstance_int (before f year month day hour) = true ->
        exists msg, e = TypeError msg
                    /\ names_argument f msg = true
                    /\ (f <> Day -> msg = type_message f))
    /\ (forallb isinstance_int (before f year month day hour) = false ->
        exists g, dependency_fault year month day hour = Some g
                  /\ e = ValueError (dependency_message g)).
Proof.
  intros Hf.
  destruct (type_fault_found _ _ _ _ _ Hf) as (t & Ht & Htype & Hdep).
  exists (error_of t).
  assert (Hc : check_date_args year month day hour s = (inl (error_of t), s)).
  { rewrite check_date_args_first_fault, Ht. reflexivity. }
  destruct (check_fails_both _ _ _ _ _ _ Hc) as [H1 H2].
  repeat split; trivial.
  - intros Hb. rewrite (Htype Hb). apply type_error_spelled.
  - intros Hb. destruct (Hdep Hb) as (g & Hg & Hnot & ->).
    exists g. split; [assumption|]. now apply dependency_error_spelled.
Qed.

End ArgumentChecks.

(** ** Selecting rows by a mask *)

Lemma take_rows_where_from {A} (mask : list bool) :
  forall (pre l : list A),
    List.length mask = List.length l ->
    take_rows (pre ++ l) (where_from (List.length pre) mask)
    = Some (map fst (filter snd (combine l mask))).
Proof.
  induction mask as [|b mask IH]; intros pre l Hlen.
  - destruct l; [reflexivity | discriminate].
  - destruct l as [|a l]; [discriminate|].
    injection Hlen as Hlen.
    specialize (IH (pre ++ [a]) l Hlen).
    rewrite <- app_assoc, length_app, Nat.add_1_r in IH. cbn [app] in IH.
    cbn [where_from combine filter snd].
    destruct b; cbn [take_rows map fst]; [|exact IH].
    rewrite IH, nth_error_app2, Nat.sub_diag by apply Nat.le_refl.
    reflexivity.
Qed.

Lemma take_rows_where {A} (l : list A) (mask : list bool) :
  List.length mask = List.length l ->
  take_rows l (np_where mask) = Some (map fst (filter snd (combine l mask))).
Proof. intros H. exact (take_rows_where_from mask [] l H). Qed.

Lemma filter_by_mask {A B} (p : A -> bool) (l : list (A * B)) :
  map fst (filter snd (combine l (map p (map fst l))))
  = filter (fun r => p (fst r)) l.
Proof.
  induction l as [|r l IH]; [reflexivity|].
  cbn [map combine filter snd fst]. destruct (p (fst r)); cbn [map fst];
    now rewrite IH.
Qed.

Lemma logical_and_map {A} (p q : A -> bool) (l : list A) :
  np_logical_and (map p l) (map q l) = map (fun x => p x && q x) l.
Proof.
  unfold np_logical_and. induction l as [|a l IH]; [reflexivity|].
  cbn [map combine fst snd]. now rewrite IH.
Qed.

Lemma filter_all {A} (p : A -> bool) (l : list A) :
  (forall a, p a = true) -> filter p l = l.
Proof.
  intros H. induction l as [|a l IH]; [reflexivity|].
  cbn. now rewrite H, IH.
Qed.

Lemma np_vectorize_nonempty {A B} (f : A -> B) (col : list A) s :
  col <> [] -> np_vectorize f col s = (inr (map f col), s).
Proof. destruct col; [now intros H | reflexivity]. Qed.

Lemma truthy_not_None v : truthy v = true -> is_None v = false.
Proof. destruct v; cbn; congruence. Qed.

Section Refinement.

Context {P : Platform} {V : Type}.

Lemma refine_step_mask (t : Table datetime V) attr v cur s :
  date_col t <> [] ->
  is_None v = true \/ truthy v = true ->
  refine_step t attr v (map cur (date_col t)) s
  = (inr (map (fun x => cur x && field_matches v (attr x)) (date_col t)), s).
Proof.
  intros Hne Hv. unfold refine_step, field_matches.
  destruct Hv as [Hv|Hv].
  - destruct v; try discriminate. cbn [truthy is_None orb].
    unfold ret. do 2 f_equal. apply map_ext. intros x.
    now rewrite andb_true_r.
  - rewrite Hv, (truthy_not_None _ Hv). cbn [orb].
    rewrite (bind_inr _ _ _ _ _ (np_vectorize_nonempty _ _ s Hne)).
    unfold ret. now rewrite logical_and_map.
Qed.

(** On a call that passes the checks and in which every supplied field
    is non-zero, the refinement keeps exactly the rows that match. *)
Lemma refine_by_date_filters (t : Table datetime V) year month day hour s :
  rows t <> [] ->
  dependency_fault year month day hour = None ->
  (forall v, In v [year; month; day; hour] ->
             is_None v = true \/ truthy v = true) ->
  refine_by_date t year month day hour s
  = (inr (filter_series year month day hour t), s).
Proof.
  intros Hne Hdep Hall.
  assert (Hd : date_col t <> []).
  { unfold date_col. destruct (rows t); [now elim Hne | discriminate]. }
  pose proof (Hall year (or_introl eq_refl)) as Hy.
  pose proof (Hall month (or_intror (or_introl eq_refl))) as Hm.
  pose proof (Hall day (or_intror (or_intror (or_introl eq_refl)))) as Hday.
  assert (Hh : is_None hour = true \/ truthy hour = true).
  { apply Hall. cbn. auto. }
  unfold refine_by_date. destruct Hy as [Hy|Hy].
  - destruct year; try discriminate. cbn [truthy].
    unfold dependency_fault in Hdep. cbn [is_None andb] in Hdep.
    destruct month; try discriminate. cbn [is_None negb andb] in Hdep.
    destruct day; try discriminate. cbn [is_None negb andb] in Hdep.
    destruct hour; try discriminate.
    unfold ret, filter_series. rewrite filter_all by reflexivity.
    now destruct t.
  - rewrite Hy.
    rewrite (bind_inr _ _ _ _ _ (np_vectorize_nonempty _ _ s Hd)).
    rewrite (bind_inr _ _ _ _ _ (refine_step_mask t dt_month month _ s Hd Hm)).
    rewrite (bind_inr _ _ _ _ _ (refine_step_mask t dt_day day _ s Hd Hday)).
    rewrite (bind_inr _ _ _ _ _ (refine_step_mask t dt_hour hour _ s Hd Hh)).
    unfold table_getitem, date_col.
    rewrite take_rows_where by now rewrite !length_map.
    rewrite filter_by_mask. unfold ret, filter_series. do 3 f_equal.
    apply filter_ext. intros r. unfold matches_fields, field_matches.
    now rewrite (truthy_not_None _ Hy).
Qed.

(** A field supplied as the integer 0 is skipped by the refinement, just
    as a field that is None. *)
Lemma refine_step_zero (t : Table datetime V) attr indx :
  refine_step t attr (PyInt 0) indx = refine_step t attr PyNone indx.
Proof. reflexivity. Qed.

End Refinement.

(** ** The two queries *)

Lemma int_not_None v : isinstance_int v = true -> is_None v = false.
Proof. destruct v; cbn; congruence. Qed.

Lemma set_unit_rows {D V} name u (t : Table D V) :
  rows (set_unit name u t) = rows t.
Proof. reflexivity. Qed.

Lemma fold_units_rows {D V} (names : list string) :
  forall t : Table D V,
    rows (fold_left (fun t colname =>
                       if negb (String.eqb colname "date")
                       then set_unit colname "mm" t else t) names t)
    = rows t.
Proof.
  induction names as [|n names IH]; intros t; [reflexivity|].
  cbn [fold_left]. rewrite IH. now destruct (negb (String.eqb n "date")).
Qed.

Section Queries.

Context {P : Platform}.

Lemma convert_dates_rows {V} (t : Table Q V) s t' s' :
  convert_dates t s = (inr t', s') -> rows t' <> [].
Proof.
  unfold convert_dates, bind, np_vectorize, date_col.
  destruct t as [cn un [|[d v] rs]]; cbn; [discriminate|].
  intros H. injection H as <- _. cbn. discriminate.
Qed.

Lemma check_no_args s :
  check_date_args PyNone PyNone PyNone PyNone s = (inr tt, s).
Proof. reflexivity. Qed.

(** X19: on a call that passes the checks and in which no supplied field
    is zero, [measured_pwv] returns exactly the rows, in their order, of
    the table it returns without arguments whose timestamps match every
    supplied field. *)
Lemma measured_pwv_filters year month day hour s full s' :
  measured_pwv PyNone PyNone PyNone PyNone s = (inr full, s') ->
  dependency_fault year month day hour = None ->
  type_fault year month day hour = None ->
  (forall v, In v [year; month; day; hour] ->
             is_None v = true \/ truthy v = true) ->
  measured_pwv year month day hour s
  = (inr (filter_series year month day hour full), s').
Proof.
  intros Hfull Hdep Htype Hall. unfold measured_pwv in *.
  rewrite (bind_inr _ _ _ _ _ (check_date_args_passes _ _ _ _ s Hdep Htype)).
  rewrite (bind_inr _ _ _ _ _ (check_no_args s)) in Hfull.
  unfold bind in *.
  destruct (read_measured_csv s) as [[e|t0] s1]; [discriminate|].
  destruct (convert_dates t0 s1) as [[e|t1] s2] eqn:Hconv; [discriminate|].
  cbn [refine_by_date truthy] in Hfull. injection Hfull as <- <-.
  apply refine_by_date_filters; trivial.
  rewrite fold_units_rows. exact (convert_dates_rows _ _ _ _ Hconv).
Qed.

(** X20: on a call that passes the checks and in which no supplied field
    is zero, [modeled_pwv] returns exactly the rows, in their order, of
    the table it returns without arguments whose timestamps match every
    supplied field. *)
Lemma modeled_pwv_filters year month day hour s full s' :
  modeled_pwv PyNone PyNone PyNone PyNone s = (inr full, s') ->
  dependency_fault year month day hour = None ->
  type_fault year month day hour = None ->
  (forall v, In v [year; month; day; hour] ->
             is_None v = true \/ truthy v = true) ->
  modeled_pwv year month day hour s
  = (inr (filter_series year month day hour full), s').
Proof.
  intros Hfull Hdep Htype Hall. unfold modeled_pwv in *.
  rewrite (bind_inr _ _ _ _ _ (check_date_args_passes _ _ _ _ s Hdep Htype)).
  rewrite (bind_inr _ _ _ _ _ (check_no_args s)) in Hfull.
  unfold bind in *.
  destruct (read_modeled_csv s) as [[e|t0] s1]; [discriminate|].
  destruct (convert_dates t0 s1) as [[e|t1] s2] eqn:Hconv; [discriminate|].
  cbn [refine_by_date truthy] in Hfull. injection Hfull as <- <-.
  apply refine_by_date_filters; trivial.
  rewrite set_unit_rows. exact (convert_dates_rows _ _ _ _ Hconv).
Qed.

Lemma check_zero_hour year month day s :
  isinstance_int day = true ->
  check_date_args year month day (PyInt 0) s
  = check_date_args year month day PyNone s.
Proof.
  intros Hd. rewrite !check_date_args_first_fault. unfold first_fault.
  now rewrite Hd, (int_not_None _ Hd).
Qed.

Lemma check_zero_day year month s :
  isinstance_int month = true ->
  check_date_args year month (PyInt 0) PyNone s
  = check_date_args year month PyNone PyNone s.
Proof.
  intros Hm. rewrite !check_date_args_first_fault. unfold first_fault.
  now rewrite Hm, (int_not_None _ Hm).
Qed.

Lemma check_zero_month year s :
  isinstance_int year = true ->
  check_date_args year (PyInt 0) PyNone PyNone s
  = check_date_args year PyNone PyNone PyNone s.
Proof.
  intros Hy. rewrite !check_date_args_first_fault. unfold first_fault.
  now rewrite Hy, (int_not_None _ Hy).
Qed.

Ltac same_checks H :=
  unfold measured_pwv, modeled_pwv, bind; rewrite H; reflexivity.

(** C10 (as amended): in a call whose more general fields are integers
    and whose more specific fields are omitted, a field supplied as the
    integer 0 adds no predicate, and the call returns what the same call
    with that field omitted returns; so does hour=0 with year, month and
    day supplied. *)
Theorem zero_field_skipped year month day s :
  isinstance_int year = true ->
  isinstance_int month = true ->
  isinstance_int day = true ->
  (measured_pwv year month day (PyInt 0) s
   = measured_pwv year month day PyNone s
   /\ measured_pwv year month (PyInt 0) PyNone s
      = measured_pwv year month PyNone PyNone s
   /\ measured_pwv year (PyInt 0) PyNone PyNone s
      = measured_pwv year PyNone PyNone PyNone s
   /\ measured_pwv (PyInt 0) PyNone PyNone PyNone s
      = measured_pwv PyNone PyNone PyNone PyNone s)
  /\ (modeled_pwv year month day (PyInt 0) s
      = modeled_pwv year month day PyNone s
      /\ modeled_pwv year month (PyInt 0) PyNone s
         = modeled_pwv year month PyNone PyNone s
      /\ modeled_pwv year (PyInt 0) PyNone PyNone s
         = modeled_pwv year PyNone PyNone PyNone s
      /\ modeled_pwv (PyInt 0) PyNone PyNone PyNone s
         = modeled_pwv PyNone PyNone PyNone PyNone s).
Proof.
  intros Hy Hm Hd.
  split; (split; [|split; [|split]]).
  - same_checks (check_zero_hour year month day s Hd).
  - same_checks (check_zero_day year month s Hm).
  - same_checks (check_zero_month year s Hy).
  - reflexivity.
  - same_checks (check_zero_hour year month day s Hd).
  - same_checks (check_zero_day year month s Hm).
  - same_checks (check_zero_month year s Hy).
  - reflexivity.
Qed.

End Queries.

(** ** Runs on a machine in UTC *)

(** C1: with hour=0, a valid hour, supplied after year, month and day,
    both functions return the measurements of 00:00 and of 01:00, the
    whole table, where the rows matching every supplied field are the
    one of 00:00 alone; with hour=1 the matching row alone is returned. *)
Theorem midnight_hour_not_refined :
  let y := PyInt 2011 in
  let m := PyInt 1 in
  let d := PyInt 1 in
  (fst (measured_pwv (P := utc_platform) PyNone PyNone PyNone PyNone
                     midnight_state) = inr midnight_measured
   /\ fst (measured_pwv (P := utc_platform) y m d (PyInt 0) midnight_state)
      = inr midnight_measured
   /\ rows (filter_series y m d (PyInt 0) midnight_measured)
      = [(mkdatetime 2011 1 1 0 0 0, [1.5%Q])]
   /\ fst (measured_pwv (P := utc_platform) y m d (PyInt 1) midnight_state)
      = inr (filter_series y m d (PyInt 1) midnight_measured))
  /\ (fst (modeled_pwv (P := utc_platform) PyNone PyNone PyNone PyNone
                       midnight_state) = inr midnight_modeled
      /\ fst (modeled_pwv (P := utc_platform) y m d (PyInt 0) midnight_state)
         = inr midnight_modeled
      /\ rows (filter_series y m d (PyInt 0) midnight_modeled)
         = [(mkdatetime 2011 1 1 0 0 0, 1.5%Q)]
      /\ fst (modeled_pwv (P := utc_platform) y m d (PyInt 1) midnight_state)
         = inr (filter_series y m d (PyInt 1) midnight_modeled)).
Proof. vm_compute. repeat split. Qed.

(** C6 fails as stated: day is supplied without month, and the call
    fails with the TypeError of year, not with a dependency error. *)
Lemma day_without_month_type_error :
  let call := measured_pwv (P := utc_platform)
                           (PyStr "2011") PyNone (PyInt 3) PyNone in
  dependency_fault (PyStr "2011") PyNone (PyInt 3) PyNone = Some Day
  /\ fst (call midnight_state)
     = inl (TypeError "Argument 'year' (pos 1) must be an integer.")
  /\ ~ (exists msg, fst (call midnight_state) = inl (ValueError msg)).
Proof.
  cbv zeta. split; [reflexivity|]. split; [reflexivity|].
  intros [msg H]. vm_compute in H. discriminate H.
Qed.

Lemma dependency_error_raised_witness :
  (dependency_fault PyNone (PyInt 5) PyNone PyNone = Some Month
   /\ measured_pwv (P := utc_platform) PyNone (PyInt 5) PyNone PyNone
                   midnight_state
      = (inl (ValueError
                "Argument 'month' (pos 2) specified without 'year' (pos 1)."),
         midnight_state))
  /\ (dependency_fault (PyStr "2011") PyNone (PyInt 3) PyNone = Some Day
      /\ modeled_pwv (P := utc_platform) (PyStr "2011") PyNone (PyInt 3)
                     PyNone midnight_state
         = (inl (TypeError "Argument 'year' (pos 1) must be an integer."),
            midnight_state)).
Proof.
  split; (split; [reflexivity|]).
  - destruct (dependency_error_raised (P := utc_platform)
                PyNone (PyInt 5) PyNone PyNone Month midnight_state eq_refl)
      as (e & H1 & _ & Hdep & _).
    rewrite H1. now rewrite (Hdep eq_refl).
  - destruct (dependency_error_raised (P := utc_platform)
                (PyStr "2011") PyNone (PyInt 3) PyNone Day midnight_state
                eq_refl)
      as (e & _ & H2 & _ & Htype).
    rewrite H2. destruct (Htype eq_refl) as (g & Hg & _ & ->).
    injection Hg as <-. reflexivity.
Defined.

(** C7 fails as stated: month is supplied as a string, and the call
    fails with the dependency error of month, not with a TypeError. *)
Lemma string_month_dependency_error :
  let call := measured_pwv (P := utc_platform)
                           PyNone (PyStr "5") PyNone PyNone in
  type_fault PyNone (PyStr "5") PyNone PyNone = Some Month
  /\ fst (call midnight_state)
     = inl (ValueError
              "Argument 'month' (pos 2) specified without 'year' (pos 1).")
  /\ ~ (exists msg, fst (call midnight_state) = inl (TypeError msg)).
Proof.
  cbv zeta. split; [reflexivity|]. split; [reflexivity|].
  intros [msg H]. vm_compute in H. discriminate H.
Qed.

Lemma type_error_raised_witness :
  type_fault (PyStr "2011") PyNone PyNone PyNone = Some Year
  /\ exists e,
      measured_pwv (P := utc_platform) (PyStr "2011") PyNone PyNone PyNone
                   midnight_state = (inl e, midnight_state)
      /\ modeled_pwv (P := utc_platform) (PyStr "2011") PyNone PyNone PyNone
                     midnight_state = (inl e, midnight_state)
      /\ (forallb isinstance_int
                  (before Year (PyStr "2011") PyNone PyNone PyNone) = true ->
          exists msg, e = TypeError msg
                      /\ names_argument Year msg = true
                      /\ (Year <> Day -> msg = type_message Year))
      /\ (forallb isinstance_int
                  (before Year (PyStr "2011") PyNone PyNone PyNone) = false ->
          exists g,
            dependency_fault (PyStr "2011") PyNone PyNone PyNone = Some g
            /\ e = ValueError (dependency_message g)).
Proof.
  split; [reflexivity|].
  apply (type_error_raised (P := utc_platform)
           (PyStr "2011") PyNone PyNone PyNone Year midnight_state).
  reflexivity.
Defined.

(** C10 fails as stated: with year=0 and month=5 the whole table is
    returned, while the same call with year omitted fails. *)
Lemma zero_year_with_month_differs :
  fst (modeled_pwv (P := utc_platform) (PyInt 0) (PyInt 5) PyNone PyNone
                   midnight_state) = inr midnight_modeled
  /\ fst (modeled_pwv (P := utc_platform) PyNone (PyInt 5) PyNone PyNone
                      midnight_state)
     = inl (ValueError
              "Argument 'month' (pos 2) specified without 'year' (pos 1).")
  /\ modeled_pwv (P := utc_platform) (PyInt 0) (PyInt 5) PyNone PyNone
                 midnight_state
     <> modeled_pwv (P := utc_platform) PyNone (PyInt 5) PyNone PyNone
                    midnight_state.
Proof.
  split; [reflexivity|]. split; [reflexivity|].
  intros H. vm_compute in H. discriminate H.
Qed.

Lemma zero_field_skipped_witness :
  isinstance_int (PyInt 2011) = true
  /\ isinstance_int (PyInt 1) = true
  /\ isinstance_int (PyInt 1) = true
  /\ measured_pwv (P := utc_platform) (PyInt 2011) (PyInt 1) (PyInt 1)
                  (PyInt 0) midnight_state
     = measured_pwv (P := utc_platform) (PyInt 2011) (PyInt 1) (PyInt 1)
                    PyNone midnight_state.
Proof.
  repeat (split; [reflexivity|]).
  apply (zero_field_skipped (P := utc_platform) (PyInt 2011) (PyInt 1)
           (PyInt 1) midnight_state); reflexivity.
Defined.

(** ** Transmission: arguments, line of sight, repeatability *)

Lemma reads_only_ret {A} (a : A) : reads_only (ret a).
Proof. intros s. split; reflexivity. Qed.

Lemma reads_only_raise {A} (e : exn) : reads_only (@raise A e).
Proof. intros s. split; reflexivity. Qed.

Lemma reads_only_access {A} ev (get : World -> option A) e :
  reads_only (access ev get e).
Proof.
  intros s. unfold access. split.
  - now destruct (get (world s)).
  - intros l. cbn [world]. now destruct (get (world s)).
Qed.

Lemma reads_only_bind {A B} (m : M A) (k : A -> M B) :
  reads_only m -> (forall a, reads_only (k a)) -> reads_only (bind m k).
Proof.
  intros Hm Hk s. destruct (Hm s) as [Hw Hl]. unfold bind. split.
  - destruct (m s) as [[e|a] s1]; cbn [snd] in *; [exact Hw|].
    destruct (Hk a s1) as [Hw1 _]. congruence.
  - intros l. specialize (Hl l).
    destruct (Hm (mkState (world s) l)) as [Hw' _]. cbn [world] in Hw'.
    destruct (m (mkState (world s) l)) as [r' [w' l']].
    destruct (m s) as [r [w1 l1]].
    cbn [fst snd world] in *. subst r' w' w1.
    destruct r as [e|a]; [reflexivity|].
    destruct (Hk a (mkState (world s) l1)) as [_ H]. apply (H l').
Qed.

Lemma reads_only_if {A} (b : bool) (m1 m2 : M A) :
  reads_only m1 -> reads_only m2 -> reads_only (if b then m1 else m2).
Proof. now destruct b. Qed.

Create HintDb reads.

#[local] Hint Resolve reads_only_ret reads_only_raise reads_only_access
  reads_only_if : reads.

Lemma reads_only_np_interp x xp fp : reads_only (np_interp x xp fp).
Proof. unfold np_interp. auto with reads. Qed.

Lemma models_only_ret {A} (a : A) : reads_models_only (ret a).
Proof. intros s1 s2 H. now split. Qed.

Lemma models_only_raise {A} (e : exn) : reads_models_only (@raise A e).
Proof. intros s1 s2 H. now split. Qed.

Lemma models_only_access {A} ev (get : World -> option A) e :
  (forall w1 w2, same_models w1 w2 -> get w1 = get w2) ->
  reads_models_only (access ev get e).
Proof.
  intros Hget s1 s2 H. unfold access. rewrite (Hget _ _ H).
  destruct (get (world s2)); now split.
Qed.

Lemma models_only_bind {A B} (m : M A) (k : A -> M B) :
  reads_models_only m -> (forall a, reads_models_only (k a)) ->
  reads_models_only (bind m k).
Proof.
  intros Hm Hk s1 s2 H. unfold bind. destruct (Hm s1 s2 H) as [Hr Hw].
  destruct (m s1) as [[e1|a1] t1], (m s2) as [[e2|a2] t2];
    cbn [fst snd] in *; try discriminate.
  - injection Hr as <-. now split.
  - injection Hr as <-. exact (Hk a1 t1 t2 Hw).
Qed.

Lemma models_only_if {A} (b : bool) (m1 m2 : M A) :
  reads_models_only m1 -> reads_models_only m2 ->
  reads_models_only (if b then m1 else m2).
Proof. now destruct b. Qed.

Lemma models_only_np_interp x xp fp : reads_models_only (np_interp x xp fp).
Proof.
  unfold np_interp.
  apply models_only_if; [apply models_only_raise|].
  apply models_only_if; [apply models_only_raise | apply models_only_ret].
Qed.

Section Transmission.

Context {P : Platform}.

Lemma reads_only_zenith_pwv date : reads_only (zenith_pwv date).
Proof.
  unfold zenith_pwv, read_modeled_csv. apply reads_only_bind.
  - auto with reads.
  - intros t. apply reads_only_np_interp.
Qed.

Lemma reads_only_los_pwv date airmass : reads_only (los_pwv date airmass).
Proof.
  unfold los_pwv. apply reads_only_bind.
  - apply reads_only_zenith_pwv.
  - auto with reads.
Qed.

Lemma reads_only_pwv_of_file file : reads_only (pwv_of_file file).
Proof.
  unfold pwv_of_file.
  destruct (nth_error _ 3) as [fld|]; [|auto with reads].
  destruct (float_of_str fld); auto with reads.
Qed.

Lemma reads_only_read_atm_mods files :
  forall atm_mods, reads_only (read_atm_mods files atm_mods).
Proof.
  induction files as [|file rest IH]; intros atm_mods; cbn [read_atm_mods].
  - auto with reads.
  - apply reads_only_if; [|apply IH].
    apply reads_only_bind; [apply reads_only_pwv_of_file|].
    intros k. apply reads_only_bind; [apply reads_only_access|].
    intros tab. apply IH.
Qed.

Lemma reads_only_load_atm_mods : reads_only load_atm_mods.
Proof.
  unfold load_atm_mods, listdir_atm_models. apply reads_only_bind.
  - auto with reads.
  - intros files. apply reads_only_read_atm_mods.
Qed.

Lemma reads_only_trans_at i atm_mods : reads_only (trans_at i atm_mods).
Proof.
  induction atm_mods as [|[k tab] rest IH]; cbn [trans_at].
  - auto with reads.
  - destruct (nth_error _ i); [|auto with reads].
    apply reads_only_bind; [exact IH|]. auto with reads.
Qed.

Lemma reads_only_calc_rows atm_mods pwv_los wavelengths :
  forall i trans_func,
    reads_only (calc_rows atm_mods pwv_los i wavelengths trans_func).
Proof.
  induction wavelengths as [|w rest IH]; intros i trans_func;
    cbn [calc_rows].
  - auto with reads.
  - apply reads_only_bind; [apply reads_only_trans_at|].
    intros trans. apply reads_only_bind; [apply reads_only_np_interp|].
    intros z. apply IH.
Qed.

Lemma reads_only_transmission_curve atm_mods pwv_los :
  reads_only (transmission_curve atm_mods pwv_los).
Proof.
  unfold transmission_curve.
  destruct (py_min _) as [k|]; [|auto with reads].
  destruct (dict_get k atm_mods); [|auto with reads].
  apply reads_only_calc_rows.
Qed.

Lemma reads_only_transmission date airmass :
  reads_only (transmission date airmass).
Proof.
  unfold transmission. repeat apply reads_only_if; auto with reads.
  apply reads_only_bind; [apply reads_only_los_pwv|].
  intros pwv_los. apply reads_only_bind; [apply reads_only_load_atm_mods|].
  intros atm_mods. apply reads_only_transmission_curve.
Qed.

(** C8: when [date] is not a datetime or [airmass] is not a number, the
    call fails with a TypeError whose message names the argument at
    fault, [date] first; the state comes back as it was, so the error is
    raised before any file is read or listed and before any
    interpolation. *)
Theorem transmission_type_error date airmass s :
  isinstance_datetime date = false \/ isinstance_float_int airmass = false ->
  exists msg,
    transmission date airmass s = (inl (TypeError msg), s)
    /\ (isinstance_datetime date = false ->
        msg = "Argument 'date' (pos 1) must be a datetime instance")
    /\ (isinstance_datetime date = true ->
        msg = "Argument 'airmass' (pos 2) should be a float instance").
Proof.
  intros H. unfold transmission.
  destruct (isinstance_datetime date) eqn:Hd.
  - destruct H as [H|H]; [discriminate|]. rewrite H. cbn [negb].
    eexists. split; [reflexivity|]. split; [discriminate | reflexivity].
  - cbn [negb]. eexists. split; [reflexivity|].
    split; [reflexivity | discriminate].
Qed.

Lemma models_only_zenith_pwv date : reads_models_only (zenith_pwv date).
Proof.
  unfold zenith_pwv, read_modeled_csv. apply models_only_bind.
  - apply models_only_access. now intros w1 w2 [H _].
  - intros t. apply models_only_np_interp.
Qed.

Lemma models_only_los_pwv date airmass :
  reads_models_only (los_pwv date airmass).
Proof.
  unfold los_pwv. apply models_only_bind.
  - apply models_only_zenith_pwv.
  - intros z. apply models_only_ret.
Qed.

Lemma models_only_pwv_of_file file : reads_models_only (pwv_of_file file).
Proof.
  unfold pwv_of_file.
  destruct (nth_error _ 3) as [fld|]; [|apply models_only_raise].
  destruct (float_of_str fld);
    [apply models_only_ret | apply models_only_raise].
Qed.

Lemma models_only_read_atm_mods files :
  forall atm_mods, reads_models_only (read_atm_mods files atm_mods).
Proof.
  induction files as [|file rest IH]; intros atm_mods; cbn [read_atm_mods].
  - apply models_only_ret.
  - apply models_only_if; [|apply IH].
    apply models_only_bind; [apply models_only_pwv_of_file|].
    intros k. apply models_only_bind.
    + apply models_only_access. intros w1 w2 [_ H]. now rewrite H.
    + intros tab. apply IH.
Qed.

Lemma models_only_load_atm_mods : reads_models_only load_atm_mods.
Proof.
  unfold load_atm_mods, listdir_atm_models. apply models_only_bind.
  - apply models_only_access. intros w1 w2 [_ H]. now rewrite H.
  - intros files. apply models_only_read_atm_mods.
Qed.

Lemma models_only_trans_at i atm_mods :
  reads_models_only (trans_at i atm_mods).
Proof.
  induction atm_mods as [|[k tab] rest IH]; cbn [trans_at].
  - apply models_only_ret.
  - destruct (nth_error _ i); [|apply models_only_raise].
    apply models_only_bind; [exact IH|]. intros ts. apply models_only_ret.
Qed.

Lemma models_only_calc_rows atm_mods pwv_los wavelengths :
  forall i trans_func,
    reads_models_only (calc_rows atm_mods pwv_los i wavelengths trans_func).
Proof.
  induction wavelengths as [|w rest IH]; intros i trans_func;
    cbn [calc_rows].
  - apply models_only_ret.
  - apply models_only_bind; [apply models_only_trans_at|].
    intros trans. apply models_only_bind; [apply models_only_np_interp|].
    intros z. apply IH.
Qed.

Lemma models_only_transmission_curve atm_mods pwv_los :
  reads_models_only (transmission_curve atm_mods pwv_los).
Proof.
  unfold transmission_curve.
  destruct (py_min _) as [k|]; [|apply models_only_raise].
  destruct (dict_get k atm_mods); [|apply models_only_raise].
  apply models_only_calc_rows.
Qed.

Lemma models_only_transmission date airmass :
  reads_models_only (transmission date airmass).
Proof.
  unfold transmission.
  apply models_only_if; [apply models_only_raise|].
  apply models_only_if; [apply models_only_raise|].
  apply models_only_bind; [apply models_only_los_pwv|].
  intros pwv_los. apply models_only_bind; [apply models_only_load_atm_mods|].
  intros atm_mods. apply models_only_transmission_curve.
Qed.

(** C9: the result of [transmission] is decided by its two arguments,
    the modeled PWV series and the directory of reference curves, and by
    nothing else that the state holds: two calls with the same
    arguments, in any two states where that series and that directory
    are the same, give the same result, the same rows with the same
    values or the same error, whatever became of the table of
    measurements and whatever was accessed in between.  The call itself
    leaves all tables and the directory as they were, so the same call
    made again right after gives the same result. *)
Theorem transmission_repeatable date airmass s :
  let first := transmission date airmass s in
  world (snd first) = world s
  /\ fst (transmission date airmass (snd first)) = fst first
  /\ forall s2,
      modeled_pwv_csv (world s2) = modeled_pwv_csv (world s) ->
      atm_models (world s2) = atm_models (world s) ->
      fst (transmission date airmass s2) = fst first.
Proof.
  cbv zeta. destruct (reads_only_transmission date airmass s) as [Hw Hl].
  split; [exact Hw|]. split.
  - destruct (transmission date airmass s) as [r [w l]].
    cbn [fst snd world] in *. subst w. apply Hl.
  - intros s2 Hm Ha.
    exact (proj1 (models_only_transmission date airmass s2 s
                    (conj Hm Ha))).
Qed.

(** C4: the PWV along the line of sight is the PWV at zenith times the
    airmass, whether the airmass is an integer, a float or a boolean; it
    is the level at which [transmission] evaluates the reference curves;
    and with airmass 2 it is twice what it is with airmass 1, as with
    any airmass doubled. *)
Theorem los_pwv_scales date airmass s z s' :
  zenith_pwv date s = (inr z, s') ->
  los_pwv date airmass s = (inr (z * num_value airmass)%Q, s')
  /\ (isinstance_datetime date = true ->
      isinstance_float_int airmass = true ->
      transmission date airmass s
      = bind load_atm_mods
             (fun atm_mods =>
                transmission_curve atm_mods (z * num_value airmass)%Q) s')
  /\ (exists l1 l2,
         los_pwv date (PyInt 1) s = (inr l1, s')
         /\ los_pwv date (PyInt 2) s = (inr l2, s')
         /\ (l2 == 2 * l1)%Q)
  /\ (forall n, los_pwv date (PyInt n) s = (inr (z * inject_Z n)%Q, s'))
  /\ (forall q, los_pwv date (PyFloat q) s = (inr (z * q)%Q, s'))
  /\ los_pwv date (PyBool true) s = (inr (z * 1)%Q, s')
  /\ los_pwv date (PyBool false) s = (inr (z * 0)%Q, s')
  /\ (forall q, isinstance_datetime date = true ->
                transmission date (PyFloat q) s
                = bind load_atm_mods
                       (fun atm_mods =>
                          transmission_curve atm_mods (z * q)%Q) s')
  /\ (forall q, exists l1 l2,
         los_pwv date (PyFloat q) s = (inr l1, s')
         /\ los_pwv date (PyFloat (2 * q)) s = (inr l2, s')
         /\ (l2 == 2 * l1)%Q).
Proof.
  intros Hz.
  assert (Hlos : forall a,
             los_pwv date a s = (inr (z * num_value a)%Q, s')).
  { intros a. unfold los_pwv. now rewrite (bind_inr _ _ _ _ _ Hz). }
  assert (Htrans : forall a,
             isinstance_datetime date = true ->
             isinstance_float_int a = true ->
             transmission date a s
             = bind load_atm_mods
                    (fun atm_mods =>
                       transmission_curve atm_mods (z * num_value a)%Q) s').
  { intros a Hd Ha. unfold transmission. rewrite Hd, Ha. cbn [negb].
    now rewrite (bind_inr _ _ _ _ _ (Hlos a)). }
  split; [apply Hlos|]. split; [apply Htrans|]. split.
  { exists (z * num_value (PyInt 1))%Q, (z * num_value (PyInt 2))%Q.
    repeat split; try apply Hlos. cbn [num_value]. ring. }
  split; [intros n; exact (Hlos (PyInt n))|].
  split; [intros q; exact (Hlos (PyFloat q))|].
  split; [exact (Hlos (PyBool true))|].
  split; [exact (Hlos (PyBool false))|].
  split; [intros q Hd; exact (Htrans (PyFloat q) Hd eq_refl)|].
  intros q. exists (z * q)%Q, (z * (2 * q))%Q.
  split; [exact (Hlos (PyFloat q))|].
  split; [exact (Hlos (PyFloat (2 * q)%Q))|]. ring.
Qed.

End Transmission.

(** ** Interpolation *)

Local Open Scope Q_scope.

Lemma Qle_bool_false x y : Qle_bool x y = false -> y < x.
Proof.
  intros H. apply Qnot_le_lt. intros Hle.
  apply Qle_bool_iff in Hle. congruence.
Qed.

Lemma Qltb_true x y : Qltb x y = true -> x < y.
Proof.
  unfold Qltb. intros H. apply Qle_bool_false.
  now destruct (Qle_bool y x).
Qed.

Lemma Qltb_false x y : Qltb x y = false -> y <= x.
Proof.
  unfold Qltb. intros H. apply Qle_bool_iff.
  now destruct (Qle_bool y x).
Qed.

Lemma Qeq_bool_false x y : Qeq_bool x y = false -> ~ x == y.
Proof. intros H Heq. apply Qeq_bool_iff in Heq. congruence. Qed.

(** The chord through [(t0, v0)] and [(t1, v1)] at its two ends. *)
Lemma chord_left t0 v0 t1 v1 x :
  t0 < t1 -> x == t0 -> v0 + (x - t0) * (v1 - v0) / (t1 - t0) == v0.
Proof. intros Hlt Hx. rewrite Hx. field. lra. Qed.

Lemma chord_right t0 v0 t1 v1 x :
  t0 < t1 -> x == t1 -> v0 + (x - t0) * (v1 - v0) / (t1 - t0) == v1.
Proof. intros Hlt Hx. rewrite Hx. field. lra. Qed.

Lemma sorted_head_lt t (l : list Q) u :
  StronglySorted Qlt (t :: l) -> In u l -> t < u.
Proof.
  intros H Hin. apply StronglySorted_inv in H. destruct H as [_ H].
  rewrite Forall_forall in H. now apply H.
Qed.

Lemma sorted_tail t (l : list Q) :
  StronglySorted Qlt (t :: l) -> StronglySorted Qlt l.
Proof. intros H. now apply StronglySorted_inv in H. Qed.

Section LinInterp.

Variable x : Q.

Lemma lin_interp_first t0 v0 rest :
  x <= t0 -> lin_interp x ((t0, v0) :: rest) = v0.
Proof.
  intros H. cbn [lin_interp]. destruct rest as [|[t1 v1] rest]; [reflexivity|].
  apply Qle_bool_iff in H. now rewrite H.
Qed.

Lemma lin_interp_step t0 v0 t1 v1 rest :
  lin_interp x ((t0, v0) :: (t1, v1) :: rest)
  = if Qle_bool x t0 then v0
    else if Qle_bool x t1 then v0 + (x - t0) * (v1 - v0) / (t1 - t0)
         else lin_interp x ((t1, v1) :: rest).
Proof. reflexivity. Qed.

Lemma lin_interp_last series :
  StronglySorted Qlt (map fst series) ->
  forall front tn vn,
    series = front ++ [(tn, vn)] -> tn <= x -> lin_interp x series == vn.
Proof.
  induction series as [|[t0 v0] rest IH]; intros Hs front tn vn Heq Hx.
  - now destruct front.
  - destruct front as [|[t0' v0'] front]; cbn [app] in Heq.
    + injection Heq as -> -> ->. reflexivity.
    + injection Heq as <- <- ->.
      destruct front as [|[t1 v1] front]; cbn [app];
        rewrite lin_interp_step.
      * cbn [map fst app] in Hs.
        assert (Hlt : t0 < tn) by (apply (sorted_head_lt _ _ _ Hs); now left).
        destruct (Qle_bool x t0) eqn:H0;
          [apply Qle_bool_iff in H0; lra|].
        destruct (Qle_bool x tn) eqn:H1; [|reflexivity].
        apply Qle_bool_iff in H1. apply chord_right; [exact Hlt | lra].
      * cbn [map fst app] in Hs.
        assert (Hlt : t0 < tn).
        { apply (sorted_head_lt _ _ _ Hs). right.
          rewrite map_app. apply in_or_app. right. now left. }
        assert (Hlt1 : t1 < tn).
        { apply (sorted_head_lt _ _ _ (sorted_tail _ _ Hs)).
          rewrite map_app. apply in_or_app. right. now left. }
        destruct (Qle_bool x t0) eqn:H0;
          [apply Qle_bool_iff in H0; lra|].
        destruct (Qle_bool x t1) eqn:H1;
          [apply Qle_bool_iff in H1; lra|].
        apply (IH (sorted_tail _ _ Hs) ((t1, v1) :: front) tn vn);
          [reflexivity | exact Hx].
Qed.

Lemma lin_interp_between series :
  StronglySorted Qlt (map fst series) ->
  forall front ta va tb vb rest,
    series = front ++ (ta, va) :: (tb, vb) :: rest ->
    ta <= x -> x <= tb ->
    lin_interp x series == va + (x - ta) * (vb - va) / (tb - ta).
Proof.
  induction series as [|[t0 v0] tl IH];
    intros Hs front ta va tb vb rest Heq Ha Hb.
  - now destruct front.
  - destruct front as [|[t0' v0'] front]; cbn [app] in Heq.
    + injection Heq as -> -> ->. rewrite lin_interp_step.
      cbn [map fst] in Hs.
      assert (Hlt : ta < tb) by (apply (sorted_head_lt _ _ _ Hs); now left).
      destruct (Qle_bool x ta) eqn:H0.
      * apply Qle_bool_iff in H0. symmetry. apply chord_left; [exact Hlt|lra].
      * apply Qle_bool_iff in Hb. now rewrite Hb.
    + injection Heq as <- <- ->. cbn [map fst] in Hs.
      assert (Hta : t0 < ta).
      { apply (sorted_head_lt _ _ _ Hs). rewrite map_app.
        apply in_or_app. right. now left. }
      destruct front as [|[t1 v1] front]; cbn [app];
        rewrite lin_interp_step.
      * cbn [app map fst] in Hs.
        assert (Hab : ta < tb).
        { apply (sorted_head_lt _ _ _ (sorted_tail _ _ Hs)). now left. }
        destruct (Qle_bool x t0) eqn:H0;
          [apply Qle_bool_iff in H0; lra|].
        destruct (Qle_bool x ta) eqn:H1.
        -- apply Qle_bool_iff in H1.
           rewrite (chord_right t0 v0 ta va x Hta) by lra.
           symmetry. apply chord_left; [exact Hab | lra].
        -- apply (IH (sorted_tail _ _ Hs) [] ta va tb vb rest);
             [reflexivity | exact Ha | exact Hb].
      * cbn [app map fst] in Hs.
        assert (H1a : t1 < ta).
        { apply (sorted_head_lt _ _ _ (sorted_tail _ _ Hs)). rewrite map_app.
          apply in_or_app. right. now left. }
        destruct (Qle_bool x t0) eqn:H0;
          [apply Qle_bool_iff in H0; lra|].
        destruct (Qle_bool x t1) eqn:H1;
          [apply Qle_bool_iff in H1; lra|].
        apply (IH (sorted_tail _ _ Hs) ((t1, v1) :: front) ta va tb vb rest);
          [reflexivity | exact Ha | exact Hb].
Qed.

Lemma lin_interp_piecewise_linear series :
  StronglySorted Qlt (map fst series) ->
  piecewise_linear series x (lin_interp x series).
Proof.
  intros Hs. split; [|split].
  - intros t0 v0 rest -> H. now rewrite lin_interp_first.
  - intros front tn vn Heq H. exact (lin_interp_last _ Hs front tn vn Heq H).
  - intros front ta va tb vb rest Heq Ha Hb.
    exact (lin_interp_between _ Hs front ta va tb vb rest Heq Ha Hb).
Qed.

End LinInterp.

Local Close Scope Q_scope.

(** ** [np.interp] on increasing samples *)

Lemma item_0 a l : item (a :: l) 0 = a.
Proof. reflexivity. Qed.

Lemma item_S a l n : item (a :: l) (Z.of_nat (S n)) = item l (Z.of_nat n).
Proof. unfold item. now rewrite !Nat2Z.id. Qed.

Lemma item_S1 a l n :
  item (a :: l) (Z.of_nat (S n) + 1) = item l (Z.of_nat n + 1).
Proof.
  unfold item.
  replace (Z.of_nat (S n) + 1) with (Z.of_nat (S (S n))) by lia.
  replace (Z.of_nat n + 1) with (Z.of_nat (S n)) by lia.
  now rewrite !Nat2Z.id.
Qed.

Lemma item_last {A} (f : A -> Q) front a :
  item (map f (front ++ [a])) (Z.of_nat (List.length (front ++ [a])) - 1)
  = f a.
Proof.
  unfold item. rewrite length_app, Nat.add_1_r.
  replace (Z.of_nat (S (List.length front)) - 1)
    with (Z.of_nat (List.length front)) by lia.
  rewrite Nat2Z.id, map_app, app_nth2; rewrite length_map;
    [now rewrite Nat.sub_diag | apply Nat.le_refl].
Qed.

Lemma scan_S key arr : forall i, scan key arr (S i) = S (scan key arr i).
Proof.
  induction arr as [|a arr IH]; intros i; cbn [scan]; [reflexivity|].
  destruct (Qle_bool a key); [apply IH | reflexivity].
Qed.

Lemma scan_le key arr :
  forall i, (scan key arr i <= i + List.length arr)%nat.
Proof.
  induction arr as [|a arr IH]; intros i; cbn [scan List.length]; [lia|].
  destruct (Qle_bool a key); [specialize (IH (S i)) |]; lia.
Qed.

Lemma interval_value_S x a xp b fp n :
  interval_value x (a :: xp) (b :: fp) (Z.of_nat (S n))
  = interval_value x xp fp (Z.of_nat n).
Proof.
  unfold interval_value. rewrite !item_S, !item_S1.
  cbn [List.length].
  replace (Z.of_nat (S n) =? Z.of_nat (S (List.length xp)) - 1)
    with (Z.of_nat n =? Z.of_nat (List.length xp) - 1); [reflexivity|].
  destruct (Z.eqb_spec (Z.of_nat n) (Z.of_nat (List.length xp) - 1));
    destruct (Z.eqb_spec (Z.of_nat (S n))
                         (Z.of_nat (S (List.length xp)) - 1)); lia.
Qed.

Local Open Scope Q_scope.

(** Inside the samples the search and the walk find the same interval. *)
Lemma interval_value_lin_interp x :
  forall series t0 v0,
    StronglySorted Qlt (t0 :: map fst series) ->
    t0 <= x ->
    interval_value x (t0 :: map fst series) (v0 :: map snd series)
                   (Z.of_nat (scan x (map fst series) 0))
    == lin_interp x ((t0, v0) :: series).
Proof.
  induction series as [|[t1 v1] series IH]; intros t0 v0 Hs H0.
  - reflexivity.
  - cbn [map fst snd scan]. rewrite lin_interp_step.
    assert (Hlt : t0 < t1) by (apply (sorted_head_lt _ _ _ Hs); now left).
    destruct (Qle_bool t1 x) eqn:H1.
    + apply Qle_bool_iff in H1.
      rewrite scan_S, interval_value_S, (IH t1 v1 (sorted_tail _ _ Hs) H1).
      destruct (Qle_bool x t0) eqn:Hx0; [apply Qle_bool_iff in Hx0; lra|].
      destruct (Qle_bool x t1) eqn:Hx1; [|reflexivity].
      apply Qle_bool_iff in Hx1.
      rewrite (lin_interp_first x t1 v1 series Hx1).
      symmetry. apply chord_right; [exact Hlt | lra].
    + apply Qle_bool_false in H1.
      unfold interval_value. cbn [List.length].
      change (Z.of_nat 0) with 0%Z. rewrite !item_0.
      change (0 + 1)%Z with (Z.of_nat 1).
      rewrite !item_S. change (Z.of_nat 0) with 0%Z. rewrite !item_0.
      destruct (Z.eqb_spec 0 (Z.of_nat (S (S (List.length (map fst series)))) - 1));
        [lia|].
      destruct (Qeq_bool t0 x) eqn:He.
      * apply Qeq_bool_iff in He.
        assert (Hx0 : Qle_bool x t0 = true) by (apply Qle_bool_iff; lra).
        now rewrite Hx0.
      * apply Qeq_bool_false in He.
        destruct (Qle_bool x t0) eqn:Hx0; [apply Qle_bool_iff in Hx0; lra|].
        assert (Hx1 : Qle_bool x t1 = true) by (apply Qle_bool_iff; lra).
        rewrite Hx1. field. lra.
Qed.

(** On increasing sample points [np.interp] is the piecewise-linear
    curve of the specification. *)
Lemma interp_value_lin_interp x series :
  series <> [] ->
  StronglySorted Qlt (map fst series) ->
  interp_value x (map fst series) (map snd series) == lin_interp x series.
Proof.
  intros Hne Hs.
  destruct series as [|[t0 v0] series]; [now elim Hne|].
  destruct series as [|[t1 v1] series].
  - unfold interp_value. cbn.
    destruct (Qltb x t0), (Qltb t0 x); reflexivity.
  - unfold interp_value.
    replace (Z.of_nat (List.length (map fst ((t0, v0) :: (t1, v1) :: series)))
             =? 1)%Z with false
      by (cbn [List.length map]; symmetry; apply Z.eqb_neq; lia).
    unfold binary_search.
    destruct (Qltb (last (map fst ((t0, v0) :: (t1, v1) :: series)) 0) x)
      eqn:Hl.
    + apply Qltb_true in Hl.
      destruct (Z.eqb_spec (Z.of_nat (List.length (map fst ((t0, v0) :: (t1, v1) :: series)))) (-1));
        [lia|].
      rewrite Z.eqb_refl.
      destruct (exists_last (l := (t0, v0) :: (t1, v1) :: series))
        as (front & [tn vn] & Heq); [discriminate|].
      rewrite Heq in *. rewrite length_map, item_last.
      rewrite map_app in Hl. cbn [map fst] in Hl. rewrite last_last in Hl.
      cbn [snd]. symmetry. apply (lin_interp_last x _ Hs front tn vn eq_refl). lra.
    + apply Qltb_false in Hl. cbn [hd map fst].
      destruct (Qltb x t0) eqn:Hh.
      * apply Qltb_true in Hh. rewrite Z.eqb_refl.
        rewrite lin_interp_first by lra. reflexivity.
      * apply Qltb_false in Hh. cbn [tl].
        pose proof (scan_le x (t1 :: map fst series) 0) as Hle.
        cbn [List.length] in Hle.
        destruct (Z.eqb_spec (Z.of_nat (scan x (t1 :: map fst series) 0))
                             (-1)); [lia|].
        destruct (Z.eqb_spec
                    (Z.of_nat (scan x (t1 :: map fst series) 0))
                    (Z.of_nat (List.length (t0 :: t1 :: map fst series))));
          [cbn [List.length] in *; lia|].
        exact (interval_value_lin_interp x ((t1, v1) :: series) t0 v0 Hs Hh).
Qed.

Lemma interp_value_piecewise_linear x series :
  series <> [] ->
  StronglySorted Qlt (map fst series) ->
  piecewise_linear series x
                   (interp_value x (map fst series) (map snd series)).
Proof.
  intros Hne Hs.
  pose proof (interp_value_lin_interp x series Hne Hs) as Heq.
  destruct (lin_interp_piecewise_linear x series Hs) as (H1 & H2 & H3).
  split; [|split].
  - intros t0 v0 rest E H. rewrite Heq. exact (H1 t0 v0 rest E H).
  - intros front tn vn E H. rewrite Heq. exact (H2 front tn vn E H).
  - intros front ta va tb vb rest E Ha Hb. rewrite Heq.
    exact (H3 front ta va tb vb rest E Ha Hb).
Qed.

Local Close Scope Q_scope.

(** ** The PWV at zenith *)

Section Zenith.

Context {P : Platform}.

Lemma zenith_pwv_value date s pwv_model :
  modeled_pwv_csv (world s) = Some pwv_model ->
  rows pwv_model <> [] ->
  zenith_pwv date s
  = (inr (interp_value (obj_timestamp date) (date_col pwv_model)
                       (value_col pwv_model)),
     mkState (world s)
             (log s ++ [EvRead (path_join PWV_TAB_DIR "modeled_pwv.csv")])).
Proof.
  intros Hw Hne. unfold zenith_pwv, read_modeled_csv, bind, access.
  rewrite Hw. unfold np_interp, date_col, value_col.
  rewrite !length_map, Nat.eqb_refl.
  destruct (rows pwv_model); [now elim Hne | reflexivity].
Qed.

Local Open Scope Q_scope.


End Zenith.


(** ** The transmission curve *)

Lemma bind_inr_inv {A B} (m : M A) (k : A -> M B) s b s' :
  bind m k s = (inr b, s') ->
  exists a s1, m s = (inr a, s1) /\ k a s1 = (inr b, s').
Proof.
  unfold bind. destruct (m s) as [[e|a] s1]; [discriminate|].
  intros H. now exists a, s1.
Qed.

Lemma np_interp_inv x xp fp s z s' :
  np_interp x xp fp s = (inr z, s') -> z = interp_value x xp fp /\ s' = s.
Proof.
  unfold np_interp.
  destruct (List.length xp =? 0)%nat; [discriminate|].
  destruct (negb (List.length fp =? List.length xp)%nat); [discriminate|].
  intros H. injection H as <- <-. now split.
Qed.

Lemma np_interp_ok x xp fp s :
  xp <> [] -> List.length fp = List.length xp ->
  np_interp x xp fp s = (inr (interp_value x xp fp), s).
Proof.
  intros Hne Hlen. unfold np_interp. rewrite Hlen, Nat.eqb_refl.
  destruct xp; [now elim Hne | reflexivity].
Qed.

Lemma keys_samples_at i (atm_mods : dict AtmTable) :
  map fst (samples_at i atm_mods) = keys atm_mods.
Proof. unfold samples_at, keys. rewrite map_map. reflexivity. Qed.

Lemma py_min_least (l : list Q) k :
  py_min l = Some k -> In k l /\ forall k', In k' l -> (k <= k')%Q.
Proof.
  destruct l as [|x rest]; [discriminate|]. cbn [py_min].
  intros H. injection H as <-.
  assert (G : forall rest x,
             let r := fold_left (fun m y => if Qltb y m then y else m) rest x in
             (r = x \/ In r rest) /\ (r <= x)%Q
             /\ forall y, In y rest -> (r <= y)%Q).
  { clear. induction rest as [|y rest IH]; intros x; cbn [fold_left].
    - cbv zeta. repeat split; [now left | lra | intros y []].
    - specialize (IH (if Qltb y x then y else x)). cbv zeta in *.
      destruct IH as (Hin & Hle & Hall).
      destruct (Qltb y x) eqn:Hyx.
      + apply Qltb_true in Hyx. repeat split.
        * destruct Hin as [->|Hin]; [right; now left | right; now right].
        * lra.
        * intros y' [<-|Hy']; [exact Hle | now apply Hall].
      + apply Qltb_false in Hyx. repeat split.
        * destruct Hin as [->|Hin]; [now left | right; now right].
        * exact Hle.
        * intros y' [<-|Hy']; [lra | now apply Hall]. }
  destruct (G rest x) as (Hin & Hle & Hall). split.
  - destruct Hin as [->|Hin]; [now left | now right].
  - intros k' [<-|Hk']; [exact Hle | now apply Hall].
Qed.

Lemma dict_get_key {V} k (d : dict V) :
  In k (keys d) -> exists v, dict_get k d = Some v /\ In v (map snd d).
Proof.
  induction d as [|[k' v'] d IH]; intros Hin; [now elim Hin|].
  cbn [dict_get]. destruct (Qeq_bool k' k) eqn:He.
  - exists v'. split; [reflexivity | now left].
  - destruct Hin as [Hk|Hin].
    + cbn [fst] in Hk. subst k'.
      assert (Qeq_bool k k = true) by (apply Qeq_bool_iff; reflexivity).
      congruence.
    + destruct (IH Hin) as (v & Hv & Hvin). exists v. split; [exact Hv|].
      now right.
Qed.

Section Curve.

Context {P : Platform}.

Lemma trans_at_inv i (atm_mods : dict AtmTable) :
  forall s ts s',
    trans_at i atm_mods s = (inr ts, s') ->
    ts = map snd (samples_at i atm_mods) /\ s' = s.
Proof.
  induction atm_mods as [|[k tab] rest IH]; intros s ts s' H;
    cbn [trans_at] in H.
  - injection H as <- <-. now split.
  - destruct (nth_error (map snd tab) i) as [t|] eqn:Hn; [|discriminate].
    apply bind_inr_inv in H. destruct H as (ts' & s1 & H1 & H2).
    injection H2 as <- <-. destruct (IH _ _ _ H1) as [-> ->].
    split; [|reflexivity]. cbn [samples_at map snd fst]. f_equal.
    symmetry. now apply nth_error_nth.
Qed.

Lemma trans_at_ok i (atm_mods : dict AtmTable) s :
  (forall c, In c (map snd atm_mods) -> (i < List.length c)%nat) ->
  trans_at i atm_mods s = (inr (map snd (samples_at i atm_mods)), s).
Proof.
  induction atm_mods as [|[k tab] rest IH]; intros Hlen; [reflexivity|].
  cbn [trans_at].
  assert (Hi : (i < List.length (map snd tab))%nat).
  { rewrite length_map. apply Hlen. now left. }
  destruct (nth_error (map snd tab) i) as [t|] eqn:Hn.
  - rewrite (bind_inr _ _ _ _ _ (IH (fun c Hc => Hlen c (or_intror Hc)))).
    unfold ret. cbn [samples_at map snd fst]. do 3 f_equal.
    symmetry. now apply nth_error_nth.
  - apply nth_error_None in Hn. lia.
Qed.

(** The loop adds one row for each wavelength, in order; the
    transmission of the row at index [i + n] is [np.interp] on the
    samples of that index. *)
Lemma calc_rows_inv atm_mods pwv_los wavelengths :
  forall i trans_func s rows s',
    calc_rows atm_mods pwv_los i wavelengths trans_func s = (inr rows, s') ->
    s' = s
    /\ exists zs,
        List.length zs = List.length wavelengths
        /\ rows = trans_func ++ combine wavelengths zs
        /\ forall n z,
            nth_error zs n = Some z ->
            z = interp_value pwv_los (keys atm_mods)
                             (map snd (samples_at (i + n) atm_mods)).
Proof.
  induction wavelengths as [|w rest IH]; intros i acc s rows s' H;
    cbn [calc_rows] in H.
  - injection H as <- <-. split; [reflexivity|]. exists [].
    repeat split; [now rewrite app_nil_r|]. intros [|n] z Hn; discriminate.
  - apply bind_inr_inv in H. destruct H as (ts & s1 & Ht & H).
    apply trans_at_inv in Ht. destruct Ht as [-> ->].
    apply bind_inr_inv in H. destruct H as (z & s2 & Hz & H).
    apply np_interp_inv in Hz. destruct Hz as [-> ->].
    destruct (IH _ _ _ _ _ H) as (-> & zs & Hlen & -> & Hnth).
    split; [reflexivity|].
    eexists (_ :: zs). split; [cbn [List.length]; now rewrite Hlen|].
    split; [now rewrite <- app_assoc|].
    intros [|n] z Hn; cbn [nth_error] in Hn.
    + injection Hn as <-. now rewrite Nat.add_0_r.
    + rewrite (Hnth n z Hn). now rewrite Nat.add_succ_r.
Qed.

Lemma calc_rows_ok atm_mods pwv_los wavelengths :
  atm_mods <> [] ->
  forall i trans_func s,
    (forall c, In c (map snd atm_mods) ->
               (i + List.length wavelengths <= List.length c)%nat) ->
    exists rows,
      calc_rows atm_mods pwv_los i wavelengths trans_func s = (inr rows, s).
Proof.
  intros Hne. induction wavelengths as [|w rest IH]; intros i acc s Hlen.
  - now eexists.
  - cbn [List.length] in Hlen.
    assert (Ht : trans_at i atm_mods s
                 = (inr (map snd (samples_at i atm_mods)), s)).
    { apply trans_at_ok. intros c Hc. specialize (Hlen c Hc). lia. }
    assert (Hk : keys atm_mods <> []).
    { destruct atm_mods; [now elim Hne | discriminate]. }
    assert (Hl : List.length (map snd (samples_at i atm_mods))
                 = List.length (keys atm_mods)).
    { unfold samples_at, keys. now rewrite !length_map. }
    pose proof (np_interp_ok pwv_los _ _ s Hk Hl) as Hz.
    destruct (IH (S i)
                 (acc ++ [(w, interp_value pwv_los (keys atm_mods)
                                (map snd (samples_at i atm_mods)))]) s)
      as [rows Hrows].
    { intros c Hc. specialize (Hlen c Hc). lia. }
    exists rows. cbn [calc_rows].
    etransitivity; [apply bind_inr; exact Ht|]. cbv beta.
    etransitivity; [apply bind_inr; exact Hz|]. exact Hrows.
Qed.

Lemma transmission_curve_inv atm_mods pwv_los s rows s' :
  transmission_curve atm_mods pwv_los s = (inr rows, s') ->
  s' = s
  /\ exists k tab zs,
      py_min (keys atm_mods) = Some k
      /\ dict_get k atm_mods = Some tab
      /\ List.length zs = List.length tab
      /\ rows = combine (map fst tab) zs
      /\ forall n z,
          nth_error zs n = Some z ->
          z = interp_value pwv_los (keys atm_mods)
                           (map snd (samples_at n atm_mods)).
Proof.
  unfold transmission_curve.
  destruct (py_min (keys atm_mods)) as [k|] eqn:Hk; [|discriminate].
  destruct (dict_get k atm_mods) as [tab|] eqn:Hg; [|discriminate].
  intros H. apply calc_rows_inv in H.
  destruct H as (-> & zs & Hlen & -> & Hnth). split; [reflexivity|].
  exists k, tab, zs. rewrite length_map in Hlen.
  split; [reflexivity|]. split; [exact Hg|]. split; [exact Hlen|].
  split; [reflexivity | exact Hnth].
Qed.

End Curve.

(** ** The grid and the values of the result *)

Lemma map_fst_combine {A B} (l : list A) (l' : list B) :
  List.length l' = List.length l -> map fst (combine l l') = l.
Proof.
  revert l'. induction l as [|a l IH]; intros [|b l'] H;
    try discriminate; [reflexivity|].
  cbn. injection H as H. now rewrite IH.
Qed.

Lemma nth_error_combine_snd {A B} (l : list A) (l' : list B) :
  forall n a b, nth_error (combine l l') n = Some (a, b) ->
                nth_error l' n = Some b.
Proof.
  revert l'. induction l as [|x l IH]; intros [|y l'] [|n] a b H;
    try discriminate.
  - now injection H as _ ->.
  - exact (IH l' n a b H).
Qed.

Section Grid.

Context {P : Platform}.

Local Open Scope Q_scope.

(** X21: when the levels come out of the directory in ascending order,
    every row of the result is the piecewise-linear interpolation,
    across the levels, of the curves' transmissions at the row's index,
    held flat below the least and above the greatest level. *)
Lemma transmission_curve_interpolates atm_mods pwv_los s rows s' :
  StronglySorted Qlt (keys atm_mods) ->
  transmission_curve atm_mods pwv_los s = (inr rows, s') ->
  forall i w z,
    nth_error rows i = Some (w, z) ->
    piecewise_linear (samples_at i atm_mods) pwv_los z.
Proof.
  intros Hs H i w z Hi.
  apply transmission_curve_inv in H.
  destruct H as (_ & k & tab & zs & Hk & _ & _ & -> & Hnth).
  apply nth_error_combine_snd in Hi. rewrite (Hnth i z Hi).
  rewrite <- (keys_samples_at i atm_mods).
  apply interp_value_piecewise_linear.
  - destruct atm_mods; [discriminate Hk | discriminate].
  - now rewrite keys_samples_at.
Qed.

End Grid.

(** ** Runs of [transmission] on a machine in UTC *)

(** C2: the two reference curves [0.9, 0.8] at 4.0 mm and [0.7, 0.6] at
    6.0 mm, evaluated at 5.0 mm along the line of sight.  When the
    directory lists the file of 6.0 mm first, the levels reach
    [np.interp] as 6.0, 4.0 and the result is the curve of 4.0 mm,
    [0.9, 0.8]; when it lists the file of 4.0 mm first, the result is
    the midpoint [0.8, 0.7]. *)
Theorem levels_listed_descending :
  let date := PyDatetime noon in
  let run w := fst (transmission (P := utc_platform) date (PyInt 1)
                                 (mkState w [])) in
  (exists pwv_los,
      fst (los_pwv (P := utc_platform) date (PyInt 1) (mkState world_6_4 []))
      = inr pwv_los /\ (pwv_los == 5)%Q)
  /\ (exists atm_mods,
         fst (load_atm_mods (P := utc_platform) (mkState world_6_4 []))
         = inr atm_mods
         /\ Forall2 Qeq (keys atm_mods) [6%Q; 4%Q]
         /\ map snd atm_mods = [curve_6; curve_4])
  /\ run world_6_4 = inr [(7000%Q, 0.9%Q); (7001%Q, 0.8%Q)]
  /\ ~ (exists rows, run world_6_4 = inr rows
                     /\ Forall2 Qeq (map snd rows) [0.8%Q; 0.7%Q])
  /\ (exists rows, run world_4_6 = inr rows
                   /\ Forall2 Qeq (map snd rows) [0.8%Q; 0.7%Q]).
Proof.
  cbv zeta. split; [|split; [|split; [|split]]].
  - eexists. split; [vm_compute; reflexivity | reflexivity].
  - eexists. split; [vm_compute; reflexivity|].
    split; [repeat constructor | reflexivity].
  - vm_compute. reflexivity.
  - intros (rows & H & Hv). vm_compute in H. injection H as <-.
    cbn [map snd] in Hv. inversion Hv as [|a b l l' Hab _]. discriminate Hab.
  - eexists. split; [vm_compute; reflexivity | repeat constructor].
Qed.

Lemma transmission_type_error_witness :
  (isinstance_datetime (PyStr "2011-01-01") = false
   \/ isinstance_float_int (PyInt 1) = false)
  /\ exists msg,
      transmission (P := utc_platform) (PyStr "2011-01-01") (PyInt 1)
                   (mkState world_4_6 [])
      = (inl (TypeError msg), mkState world_4_6 [])
      /\ (isinstance_datetime (PyStr "2011-01-01") = false ->
          msg = "Argument 'date' (pos 1) must be a datetime instance")
      /\ (isinstance_datetime (PyStr "2011-01-01") = true ->
          msg = "Argument 'airmass' (pos 2) should be a float instance").
Proof.
  split; [left; reflexivity|].
  apply (transmission_type_error (P := utc_platform)
           (PyStr "2011-01-01") (PyInt 1) (mkState world_4_6 [])).
  left. reflexivity.
Defined.

Lemma los_pwv_scales_witness :
  let date := PyDatetime noon in
  let s := mkState world_4_6 [] in
  let s' := mkState world_4_6
                    [EvRead (path_join PWV_TAB_DIR "modeled_pwv.csv")] in
  zenith_pwv (P := utc_platform) date s = (inr 5%Q, s')
  /\ los_pwv (P := utc_platform) date (PyFloat 1.5%Q) s = (inr 7.5%Q, s')
  /\ los_pwv (P := utc_platform) date (PyInt 2) s = (inr 10%Q, s')
  /\ los_pwv (P := utc_platform) date (PyBool true) s = (inr 5%Q, s').
Proof.
  cbv zeta.
  assert (Hz : zenith_pwv (P := utc_platform) (PyDatetime noon)
                          (mkState world_4_6 [])
               = (inr 5%Q,
                  mkState world_4_6
                          [EvRead (path_join PWV_TAB_DIR "modeled_pwv.csv")]))
    by reflexivity.
  destruct (los_pwv_scales (P := utc_platform) (PyDatetime noon)
              (PyFloat 1.5%Q) (mkState world_4_6 []) 5%Q _ Hz)
    as (_ & _ & _ & Hint & Hfloat & Htrue & _).
  split; [exact Hz|]. split; [exact (Hfloat 1.5%Q)|].
  split; [exact (Hint 2)|]. exact Htrue.
Defined.

(** The same call in two states that share the modeled series and the
    directory of reference curves and differ in the table of
    measurements and in the log. *)
Lemma transmission_repeatable_witness :
  let s := mkState world_4_6 [] in
  let s2 := mkState world_4_6_measured
                    [EvRead "./pwv_tables/measured_pwv.csv"] in
  modeled_pwv_csv (world s2) = modeled_pwv_csv (world s)
  /\ atm_models (world s2) = atm_models (world s)
  /\ world s2 <> world s
  /\ fst (transmission (P := utc_platform) (PyDatetime noon) (PyInt 1) s2)
     = fst (transmission (P := utc_platform) (PyDatetime noon) (PyInt 1) s).
Proof.
  cbv zeta. split; [reflexivity|]. split; [reflexivity|].
  split; [discriminate|].
  apply (proj2 (proj2 (transmission_repeatable (P := utc_platform)
                         (PyDatetime noon) (PyInt 1)
                         (mkState world_4_6 [])))); reflexivity.
Defined.

(** * Further properties of the code *)

(** ** [update_models] *)

Section UpdateModelsProperties.

Variable current_year : Z.
Variable _update_suomi_data : pyobj -> M (list Z).
Variable _update_pwv_model : M unit.

(** X1: a [year] that is neither None nor an integer is refused with a
    TypeError, whatever the clock says, and neither the SuomiNet data
    nor the PWV model is updated: the state is returned untouched. *)
Theorem update_models_type_error year s :
  isinstance_int year = false ->
  is_None year = false ->
  update_models current_year _update_suomi_data _update_pwv_model year s
  = (inl (TypeError "Argument 'year' must be an integer."), s).
Proof. intros Hi Hn. unfold update_models. now rewrite Hi, Hn. Qed.

(** X2: an integer [year] before 2010, or after the current year, is
    refused with a ValueError, the first with the message about 2010,
    and nothing is updated. *)
Theorem update_models_range_error year s :
  isinstance_int year = true ->
  (int_of year < 2010 ->
   update_models current_year _update_suomi_data _update_pwv_model year s
   = (inl (ValueError "Cannot update models for years prior to 2010"), s))
  /\ (2010 <= int_of year -> current_year < int_of year ->
      update_models current_year _update_suomi_data _update_pwv_model year s
      = (inl (ValueError
                "Cannot update models for years greater than current year"),
         s)).
Proof.
  intros Hi. unfold update_models. rewrite Hi. cbn [orb negb andb]. split.
  - intros Hlt. apply Z.ltb_lt in Hlt. now rewrite Hlt.
  - intros Hge Hgt. apply Z.ltb_ge in Hge. apply Z.ltb_lt in Hgt.
    now rewrite Hge, Hgt.
Qed.

(** X3: when [year] is None, or an integer from 2010 to the current
    year, the data are updated first and the model after: a failure of
    the data update is the failure of the call and the model is not
    touched; a failure of the model update is the failure of the call;
    otherwise the call returns the years the data update reported. *)
Theorem update_models_runs year s :
  is_None year = true
  \/ (isinstance_int year = true /\ 2010 <= int_of year <= current_year) ->
  (forall e s1,
      _update_suomi_data year s = (inl e, s1) ->
      update_models current_year _update_suomi_data _update_pwv_model year s
      = (inl e, s1))
  /\ (forall years s1 e s2,
         _update_suomi_data year s = (inr years, s1) ->
         _update_pwv_model s1 = (inl e, s2) ->
         update_models current_year _update_suomi_data _update_pwv_model
                       year s = (inl e, s2))
  /\ (forall years s1 s2,
         _update_suomi_data year s = (inr years, s1) ->
         _update_pwv_model s1 = (inr tt, s2) ->
         update_models current_year _update_suomi_data _update_pwv_model
                       year s = (inr years, s2)).
Proof.
  intros Hv.
  assert (Hrun : update_models current_year _update_suomi_data
                               _update_pwv_model year s
                 = bind (_update_suomi_data year)
                        (fun updated_years =>
                           bind _update_pwv_model
                                (fun _ => ret updated_years)) s).
  { unfold update_models. destruct Hv as [Hn|[Hi [Hlo Hhi]]].
    - destruct year; try discriminate. reflexivity.
    - rewrite Hi. cbn [orb negb andb].
      apply Z.ltb_ge in Hlo. apply Z.ltb_ge in Hhi. now rewrite Hlo, Hhi. }
  rewrite Hrun. unfold bind. repeat split.
  - intros e s1 H. now rewrite H.
  - intros years s1 e s2 H1 H2. now rewrite H1, H2.
  - intros years s1 s2 H1 H2. now rewrite H1, H2.
Qed.

End UpdateModelsProperties.

(** The calls of [TestUpdateModelsArgs] with a wrong type:
    [update_models("2011")], and [update_models(2011.5)] in the proof. *)
Lemma update_models_type_error_witness :
  isinstance_int (PyStr "2011") = false
  /\ is_None (PyStr "2011") = false
  /\ update_models 2017 example_update_data example_update_model
                   (PyStr "2011") midnight_state
     = (inl (TypeError "Argument 'year' must be an integer."), midnight_state)
  /\ update_models 2017 example_update_data example_update_model
                   (PyFloat 2011.5%Q) midnight_state
     = (inl (TypeError "Argument 'year' must be an integer."), midnight_state).
Proof.
  split; [reflexivity|]. split; [reflexivity|]. split.
  - apply (update_models_type_error 2017 example_update_data
             example_update_model (PyStr "2011") midnight_state);
      reflexivity.
  - apply (update_models_type_error 2017 example_update_data
             example_update_model (PyFloat 2011.5%Q) midnight_state);
      reflexivity.
Defined.

(** The calls of [TestUpdateModelsArgs] with a wrong year:
    [update_models(2009)] and [update_models(datetime.now().year + 1)]. *)
Lemma update_models_range_error_witness :
  isinstance_int (PyInt 2009) = true
  /\ int_of (PyInt 2009) < 2010
  /\ update_models 2017 example_update_data example_update_model
                   (PyInt 2009) midnight_state
     = (inl (ValueError "Cannot update models for years prior to 2010"),
        midnight_state)
  /\ update_models 2017 example_update_data example_update_model
                   (PyInt (2017 + 1)) midnight_state
     = (inl (ValueError
               "Cannot update models for years greater than current year"),
        midnight_state).
Proof.
  split; [reflexivity|]. split; [reflexivity|]. split.
  - apply (proj1 (update_models_range_error 2017 example_update_data
                    example_update_model (PyInt 2009) midnight_state
                    eq_refl)). reflexivity.
  - apply (proj2 (update_models_range_error 2017 example_update_data
                    example_update_model (PyInt (2017 + 1)) midnight_state
                    eq_refl)); [discriminate | reflexivity].
Defined.

Lemma update_models_runs_witness :
  (is_None (PyInt 2011) = true
   \/ (isinstance_int (PyInt 2011) = true
       /\ 2010 <= int_of (PyInt 2011) <= 2017))
  /\ update_models 2017 example_update_data example_update_model
                   (PyInt 2011) midnight_state
     = (inr [2011], mkState midnight_world [EvListdir "suominet"]).
Proof.
  assert (Hv : is_None (PyInt 2011) = true
               \/ (isinstance_int (PyInt 2011) = true
                   /\ 2010 <= int_of (PyInt 2011) <= 2017)).
  { right. split; [reflexivity|]. split; discriminate. }
  split; [exact Hv|].
  apply (proj2 (proj2 (update_models_runs 2017 example_update_data
                         example_update_model (PyInt 2011) midnight_state
                         Hv))
           [2011] (mkState midnight_world [EvListdir "suominet"]));
    reflexivity.
Defined.

(** ** The two queries, in general *)

Lemma keeps_state_ret {A} (a : A) : keeps_state (ret a).
Proof. intros s. reflexivity. Qed.

Lemma keeps_state_raise {A} (e : exn) : keeps_state (@raise A e).
Proof. intros s. reflexivity. Qed.

Lemma keeps_state_bind {A B} (m : M A) (k : A -> M B) :
  keeps_state m -> (forall a, keeps_state (k a)) -> keeps_state (bind m k).
Proof.
  intros Hm Hk s. unfold bind. specialize (Hm s).
  destruct (m s) as [[e|a] s1]; cbn [snd] in *; subst s1; [reflexivity|].
  apply Hk.
Qed.

Lemma keeps_state_np_vectorize {A B} (f : A -> B) col :
  keeps_state (np_vectorize f col).
Proof. intros s. now destruct col. Qed.

Lemma keeps_state_table_getitem {D V} (t : Table D V) idx :
  keeps_state (table_getitem t idx).
Proof. intros s. unfold table_getitem. now destruct (take_rows _ _). Qed.

Lemma filter_and {A} (p q : A -> bool) (l : list A) :
  filter q (filter p l) = filter (fun a => p a && q a) l.
Proof.
  induction l as [|a l IH]; [reflexivity|]. cbn [filter].
  destruct (p a); cbn [filter andb]; [|exact IH].
  destruct (q a); now rewrite IH.
Qed.

Lemma assoc_get_set_same k v l : assoc_get k (assoc_set k v l) = Some v.
Proof.
  induction l as [|[k' v'] l IH]; cbn [assoc_set assoc_get].
  - now rewrite String.eqb_refl.
  - destruct (String.eqb k' k) eqn:He; cbn [assoc_get]; now rewrite He.
Qed.

Lemma assoc_get_set_other k k' v l :
  k <> k' -> assoc_get k (assoc_set k' v l) = assoc_get k l.
Proof.
  intros Hne. induction l as [|[k0 v0] l IH]; cbn [assoc_set assoc_get].
  - destruct (String.eqb_spec k' k); [congruence | reflexivity].
  - destruct (String.eqb_spec k0 k') as [->|H0]; cbn [assoc_get].
    + destruct (String.eqb_spec k' k); [congruence | reflexivity].
    + now rewrite IH.
Qed.

Lemma assoc_get_set_mm k k' l :
  assoc_get k l = Some "mm" -> assoc_get k (assoc_set k' "mm" l) = Some "mm".
Proof.
  intros H. destruct (String.eqb_spec k k') as [->|Hne].
  - apply assoc_get_set_same.
  - now rewrite assoc_get_set_other.
Qed.

(** The loop of lines 149-151 over the column names. *)
Lemma fold_units_mm {D V} (names : list string) :
  forall t : Table D V,
    let t' := fold_left (fun t colname =>
                           if negb (String.eqb colname "date")
                           then set_unit colname "mm" t else t) names t in
    colnames t' = colnames t
    /\ assoc_get "date" (units t') = assoc_get "date" (units t)
    /\ (forall c, assoc_get c (units t) = Some "mm" ->
                  assoc_get c (units t') = Some "mm")
    /\ (forall c, In c names -> c <> "date" ->
                  assoc_get c (units t') = Some "mm").
Proof.
  induction names as [|n names IH]; intros t; cbn [fold_left].
  - cbv zeta. repeat split; trivial. intros c [].
  - cbv zeta in *.
    set (t1 := if negb (String.eqb n "date") then set_unit n "mm" t else t).
    destruct (IH t1) as (Hc & Hd & Hkeep & Hall).
    assert (Hc1 : colnames t1 = colnames t).
    { unfold t1. now destruct (negb (String.eqb n "date")). }
    assert (Hd1 : assoc_get "date" (units t1) = assoc_get "date" (units t)).
    { unfold t1. destruct (String.eqb_spec n "date") as [->|Hn];
        cbn [negb]; [reflexivity|].
      cbn [set_unit units]. apply assoc_get_set_other. congruence. }
    assert (Hk1 : forall c, assoc_get c (units t) = Some "mm" ->
                            assoc_get c (units t1) = Some "mm").
    { intros c H. unfold t1. destruct (negb (String.eqb n "date"));
        [|exact H]. cbn [set_unit units]. now apply assoc_get_set_mm. }
    split; [congruence|]. split; [congruence|]. split.
    + intros c H. apply Hkeep. now apply Hk1.
    + intros c [<-|Hin] Hne; [|now apply Hall].
      apply Hkeep. unfold t1.
      destruct (String.eqb_spec n "date") as [->|Hn]; [now elim Hne|].
      cbn [negb set_unit units]. apply assoc_get_set_same.
Qed.

Section GeneralQueries.

Context {P : Platform}.

Lemma keeps_state_refine_step {V} (t : Table datetime V) attr v indx :
  keeps_state (refine_step t attr v indx).
Proof.
  unfold refine_step. destruct (truthy v); [|apply keeps_state_ret].
  apply keeps_state_bind; [apply keeps_state_np_vectorize|].
  intros test. apply keeps_state_ret.
Qed.

Lemma keeps_state_refine_by_date {V} (t : Table datetime V)
    year month day hour :
  keeps_state (refine_by_date t year month day hour).
Proof.
  unfold refine_by_date. destruct (truthy year); [|apply keeps_state_ret].
  apply keeps_state_bind; [apply keeps_state_np_vectorize|]. intros i0.
  apply keeps_state_bind; [apply keeps_state_refine_step|]. intros i1.
  apply keeps_state_bind; [apply keeps_state_refine_step|]. intros i2.
  apply keeps_state_bind; [apply keeps_state_refine_step|]. intros i3.
  apply keeps_state_table_getitem.
Qed.

Lemma keeps_state_convert_dates {V} (t : Table Q V) :
  keeps_state (convert_dates t).
Proof.
  unfold convert_dates.
  apply keeps_state_bind; [apply keeps_state_np_vectorize|].
  intros dates. apply keeps_state_ret.
Qed.

Lemma refine_step_general {V} (t : Table datetime V) attr v cur s :
  date_col t <> [] ->
  refine_step t attr v (map cur (date_col t)) s
  = (inr (map (fun x => cur x && refined_by v (attr x)) (date_col t)), s).
Proof.
  intros Hne. unfold refine_step, refined_by.
  destruct (truthy v); cbn [negb orb].
  - rewrite (bind_inr _ _ _ _ _ (np_vectorize_nonempty _ _ s Hne)).
    unfold ret. now rewrite logical_and_map.
  - unfold ret. do 2 f_equal. apply map_ext. intros x.
    now rewrite andb_true_r.
Qed.

(** Lines 153-172 on a table with at least one row, whatever the
    arguments are. *)
Lemma refine_by_date_kept {V} (t : Table datetime V) year month day hour s :
  rows t <> [] ->
  refine_by_date t year month day hour s
  = (inr (keep_rows (kept year month day hour) t), s).
Proof.
  intros Hne.
  assert (Hd : date_col t <> []).
  { unfold date_col. destruct (rows t); [now elim Hne | discriminate]. }
  unfold refine_by_date, kept, keep_rows. destruct (truthy year) eqn:Hy.
  - rewrite (bind_inr _ _ _ _ _ (np_vectorize_nonempty _ _ s Hd)).
    rewrite (bind_inr _ _ _ _ _ (refine_step_general t dt_month month _ s Hd)).
    rewrite (bind_inr _ _ _ _ _ (refine_step_general t dt_day day _ s Hd)).
    rewrite (bind_inr _ _ _ _ _ (refine_step_general t dt_hour hour _ s Hd)).
    unfold table_getitem, date_col.
    rewrite take_rows_where by now rewrite !length_map.
    rewrite filter_by_mask. unfold ret. do 3 f_equal.
    apply filter_ext. intros r. unfold refined_by at 4. now rewrite Hy.
  - unfold ret. rewrite filter_all by reflexivity. now destruct t.
Qed.

(** A call that passes the checks loads the table as the call without
    arguments does, and then refines it. *)
Lemma measured_pwv_factors year month day hour s :
  first_fault year month day hour = None ->
  measured_pwv year month day hour s
  = bind (measured_pwv PyNone PyNone PyNone PyNone)
         (fun full => refine_by_date full year month day hour) s.
Proof.
  intros Hf. unfold measured_pwv, bind.
  rewrite !check_date_args_first_fault, Hf. cbn [first_fault outcome is_None
    isinstance_int orb andb negb].
  destruct (read_measured_csv s) as [[e|t0] s1]; [reflexivity|].
  destruct (convert_dates t0 s1) as [[e|t1] s2]; reflexivity.
Qed.

Lemma modeled_pwv_factors year month day hour s :
  first_fault year month day hour = None ->
  modeled_pwv year month day hour s
  = bind (modeled_pwv PyNone PyNone PyNone PyNone)
         (fun full => refine_by_date full year month day hour) s.
Proof.
  intros Hf. unfold modeled_pwv, bind.
  rewrite !check_date_args_first_fault, Hf. cbn [first_fault outcome is_None
    isinstance_int orb andb negb].
  destruct (read_modeled_csv s) as [[e|t0] s1]; [reflexivity|].
  destruct (convert_dates t0 s1) as [[e|t1] s2]; reflexivity.
Qed.

Lemma measured_pwv_full_rows s full s' :
  measured_pwv PyNone PyNone PyNone PyNone s = (inr full, s') ->
  rows full <> [].
Proof.
  unfold measured_pwv. rewrite (bind_inr _ _ _ _ _ (check_no_args s)).
  unfold bind.
  destruct (read_measured_csv s) as [[e|t0] s1]; [discriminate|].
  destruct (convert_dates t0 s1) as [[e|t1] s2] eqn:Hc; [discriminate|].
  intros H. injection H as <- <-. rewrite fold_units_rows.
  exact (convert_dates_rows _ _ _ _ Hc).
Qed.

Lemma modeled_pwv_full_rows s full s' :
  modeled_pwv PyNone PyNone PyNone PyNone s = (inr full, s') ->
  rows full <> [].
Proof.
  unfold modeled_pwv. rewrite (bind_inr _ _ _ _ _ (check_no_args s)).
  unfold bind.
  destruct (read_modeled_csv s) as [[e|t0] s1]; [discriminate|].
  destruct (convert_dates t0 s1) as [[e|t1] s2] eqn:Hc; [discriminate|].
  intros H. injection H as <- <-. rewrite set_unit_rows.
  exact (convert_dates_rows _ _ _ _ Hc).
Qed.

Lemma returns_no_fault {A} year month day hour (k : unit -> M A) s a s' :
  bind (check_date_args year month day hour) k s = (inr a, s') ->
  first_fault year month day hour = None.
Proof.
  unfold bind. rewrite check_date_args_first_fault.
  destruct (first_fault year month day hour); [discriminate | reflexivity].
Qed.

Lemma measured_pwv_returns year month day hour s t s' :
  measured_pwv year month day hour s = (inr t, s') ->
  first_fault year month day hour = None
  /\ exists full,
      measured_pwv PyNone PyNone PyNone PyNone s = (inr full, s')
      /\ t = keep_rows (kept year month day hour) full.
Proof.
  intros H.
  assert (Hf : first_fault year month day hour = None)
    by exact (returns_no_fault _ _ _ _ _ _ _ _ H).
  split; [exact Hf|].
  rewrite (measured_pwv_factors _ _ _ _ s Hf) in H.
  apply bind_inr_inv in H. destruct H as (full & s1 & Hfull & H).
  rewrite (refine_by_date_kept full _ _ _ _ s1
             (measured_pwv_full_rows _ _ _ Hfull)) in H.
  injection H as <- <-. now exists full.
Qed.

Lemma modeled_pwv_returns year month day hour s t s' :
  modeled_pwv year month day hour s = (inr t, s') ->
  first_fault year month day hour = None
  /\ exists full,
      modeled_pwv PyNone PyNone PyNone PyNone s = (inr full, s')
      /\ t = keep_rows (kept year month day hour) full.
Proof.
  intros H.
  assert (Hf : first_fault year month day hour = None)
    by exact (returns_no_fault _ _ _ _ _ _ _ _ H).
  split; [exact Hf|].
  rewrite (modeled_pwv_factors _ _ _ _ s Hf) in H.
  apply bind_inr_inv in H. destruct H as (full & s1 & Hfull & H).
  rewrite (refine_by_date_kept full _ _ _ _ s1
             (modeled_pwv_full_rows _ _ _ Hfull)) in H.
  injection H as <- <-. now exists full.
Qed.

End GeneralQueries.

Lemma keep_rows_keep_rows {V} (p q : datetime -> bool) (t : Table datetime V) :
  keep_rows q (keep_rows p t) = keep_rows (fun x => p x && q x) t.
Proof. unfold keep_rows. cbn [colnames units rows]. now rewrite filter_and. Qed.

Lemma keep_rows_ext {V} (p q : datetime -> bool) (t : Table datetime V) :
  (forall x, p x = q x) -> keep_rows p t = keep_rows q t.
Proof.
  intros H. unfold keep_rows. f_equal. apply filter_ext. intros r. apply H.
Qed.

Lemma kept_hour year month day hour x :
  truthy year = true ->
  kept year month day hour x
  = kept year month day PyNone x && refined_by hour (dt_hour x).
Proof.
  intros Hy. unfold kept. rewrite Hy.
  change (refined_by PyNone (dt_hour x)) with true.
  now rewrite andb_true_r.
Qed.

Lemma kept_day year month day x :
  truthy year = true ->
  kept year month day PyNone x
  = kept year month PyNone PyNone x && refined_by day (dt_day x).
Proof.
  intros Hy. unfold kept. rewrite Hy.
  change (refined_by PyNone (dt_hour x)) with true.
  change (refined_by PyNone (dt_day x)) with true.
  now rewrite !andb_true_r.
Qed.

Lemma kept_month year month x :
  truthy year = true ->
  kept year month PyNone PyNone x
  = kept year PyNone PyNone PyNone x && refined_by month (dt_month x).
Proof.
  intros Hy. unfold kept. rewrite Hy.
  change (refined_by PyNone (dt_hour x)) with true.
  change (refined_by PyNone (dt_day x)) with true.
  change (refined_by PyNone (dt_month x)) with true.
  now rewrite !andb_true_r.
Qed.

Section QueryProperties.

Context {P : Platform}.

(** X4: whenever a query returns a table, the query without arguments
    returns one too, and the table returned has the same columns and
    units and, of its rows, in their order, those that [kept] keeps:
    every row when year is None or zero, and otherwise the rows that
    equal each field that is neither None nor zero.  No row is added,
    changed or moved. *)
Theorem queries_return_kept_rows year month day hour s :
  (forall t s',
      measured_pwv year month day hour s = (inr t, s') ->
      exists full,
        measured_pwv PyNone PyNone PyNone PyNone s = (inr full, s')
        /\ t = keep_rows (kept year month day hour) full)
  /\ (forall t s',
         modeled_pwv year month day hour s = (inr t, s') ->
         exists full,
           modeled_pwv PyNone PyNone PyNone PyNone s = (inr full, s')
           /\ t = keep_rows (kept year month day hour) full).
Proof.
  split; intros t s' H.
  - exact (proj2 (measured_pwv_returns _ _ _ _ _ _ _ H)).
  - exact (proj2 (modeled_pwv_returns _ _ _ _ _ _ _ H)).
Qed.

(** X5: with a year that is neither None nor zero, each further field
    refines the result of the call without it: the call with an hour
    returns the rows of the call without the hour whose hour equals it
    (all of them when the hour is zero), and likewise the day after the
    month and the month after the year. *)
Theorem queries_refine_step_by_step year month day hour s s' :
  truthy year = true ->
  (forall t, measured_pwv year month day PyNone s = (inr t, s') ->
             first_fault year month day hour = None ->
             measured_pwv year month day hour s
             = (inr (keep_rows (fun x => refined_by hour (dt_hour x)) t), s'))
  /\ (forall t, measured_pwv year month PyNone PyNone s = (inr t, s') ->
                first_fault year month day PyNone = None ->
                measured_pwv year month day PyNone s
                = (inr (keep_rows (fun x => refined_by day (dt_day x)) t), s'))
  /\ (forall t, measured_pwv year PyNone PyNone PyNone s = (inr t, s') ->
                first_fault year month PyNone PyNone = None ->
                measured_pwv year month PyNone PyNone s
                = (inr (keep_rows (fun x => refined_by month (dt_month x)) t),
                   s'))
  /\ (forall t, modeled_pwv year month day PyNone s = (inr t, s') ->
                first_fault year month day hour = None ->
                modeled_pwv year month day hour s
                = (inr (keep_rows (fun x => refined_by hour (dt_hour x)) t),
                   s'))
  /\ (forall t, modeled_pwv year month PyNone PyNone s = (inr t, s') ->
                first_fault year month day PyNone = None ->
                modeled_pwv year month day PyNone s
                = (inr (keep_rows (fun x => refined_by day (dt_day x)) t), s'))
  /\ (forall t, modeled_pwv year PyNone PyNone PyNone s = (inr t, s') ->
                first_fault year month PyNone PyNone = None ->
                modeled_pwv year month PyNone PyNone s
                = (inr (keep_rows (fun x => refined_by month (dt_month x)) t),
                   s')).
Proof.
  intros Hy.
  assert (Hm : forall y m d h y' m' d' h' q t,
             (forall x, kept y m d h x = kept y' m' d' h' x && q x) ->
             measured_pwv y' m' d' h' s = (inr t, s') ->
             first_fault y m d h = None ->
             measured_pwv y m d h s = (inr (keep_rows q t), s')).
  { intros y m d h y' m' d' h' q t Hk Ht Hf.
    destruct (measured_pwv_returns _ _ _ _ _ _ _ Ht) as (_ & full & Hfull & ->).
    rewrite (measured_pwv_factors _ _ _ _ s Hf), (bind_inr _ _ _ _ _ Hfull).
    rewrite (refine_by_date_kept full _ _ _ _ s'
               (measured_pwv_full_rows _ _ _ Hfull)).
    rewrite keep_rows_keep_rows. do 2 f_equal. now apply keep_rows_ext. }
  assert (Hmod : forall y m d h y' m' d' h' q t,
             (forall x, kept y m d h x = kept y' m' d' h' x && q x) ->
             modeled_pwv y' m' d' h' s = (inr t, s') ->
             first_fault y m d h = None ->
             modeled_pwv y m d h s = (inr (keep_rows q t), s')).
  { intros y m d h y' m' d' h' q t Hk Ht Hf.
    destruct (modeled_pwv_returns _ _ _ _ _ _ _ Ht) as (_ & full & Hfull & ->).
    rewrite (modeled_pwv_factors _ _ _ _ s Hf), (bind_inr _ _ _ _ _ Hfull).
    rewrite (refine_by_date_kept full _ _ _ _ s'
               (modeled_pwv_full_rows _ _ _ Hfull)).
    rewrite keep_rows_keep_rows. do 2 f_equal. now apply keep_rows_ext. }
  split; [|split; [|split; [|split; [|split]]]]; intros t Ht Hf.
  - apply (Hm _ _ _ _ _ _ _ _ _ _ (fun x => kept_hour _ _ _ _ x Hy) Ht Hf).
  - apply (Hm _ _ _ _ _ _ _ _ _ _ (fun x => kept_day _ _ _ x Hy) Ht Hf).
  - apply (Hm _ _ _ _ _ _ _ _ _ _ (fun x => kept_month _ _ x Hy) Ht Hf).
  - apply (Hmod _ _ _ _ _ _ _ _ _ _ (fun x => kept_hour _ _ _ _ x Hy) Ht Hf).
  - apply (Hmod _ _ _ _ _ _ _ _ _ _ (fun x => kept_day _ _ _ x Hy) Ht Hf).
  - apply (Hmod _ _ _ _ _ _ _ _ _ _ (fun x => kept_month _ _ x Hy) Ht Hf).
Qed.

(** X6: a table that a query returns has the column names of the file
    it was read from; its [date] column has the unit UTC; in
    [measured_pwv] every other column, and in [modeled_pwv] the column
    [pwv], has the unit mm, whatever units the file carried. *)
Theorem queries_set_units year month day hour s :
  (forall t s',
      measured_pwv year month day hour s = (inr t, s') ->
      exists raw,
        measured_pwv_csv (world s) = Some raw
        /\ colnames t = colnames raw
        /\ assoc_get "date" (units t) = Some "UTC"
        /\ forall c, In c (colnames raw) -> c <> "date" ->
                     assoc_get c (units t) = Some "mm")
  /\ (forall t s',
         modeled_pwv year month day hour s = (inr t, s') ->
         exists raw,
           modeled_pwv_csv (world s) = Some raw
           /\ colnames t = colnames raw
           /\ assoc_get "date" (units t) = Some "UTC"
           /\ assoc_get "pwv" (units t) = Some "mm").
Proof.
  split; intros t s' H.
  - destruct (measured_pwv_returns _ _ _ _ _ _ _ H) as (_ & full & Hfull & ->).
    cbn [keep_rows colnames units]. clear H.
    unfold measured_pwv in Hfull.
    rewrite (bind_inr _ _ _ _ _ (check_no_args s)) in Hfull.
    unfold bind, read_measured_csv, access in Hfull.
    destruct (measured_pwv_csv (world s)) as [raw|]; [|discriminate].
    exists raw. split; [reflexivity|].
    unfold convert_dates, bind in Hfull.
    destruct (np_vectorize fromtimestamp (date_col raw) _) as [[e|dates] s2];
      [discriminate|].
    cbv beta iota in Hfull. injection Hfull as <- _.
    match goal with
    | |- context [fold_left ?f ?names ?t0] =>
        destruct (fold_units_mm names t0) as (Hc & Hd & _ & Hall)
    end.
    cbv zeta in *. split; [exact Hc|]. split.
    + rewrite Hd. cbn [ret fst set_unit units]. apply assoc_get_set_same.
    + exact Hall.
  - destruct (modeled_pwv_returns _ _ _ _ _ _ _ H) as (_ & full & Hfull & ->).
    cbn [keep_rows colnames units]. clear H.
    unfold modeled_pwv in Hfull.
    rewrite (bind_inr _ _ _ _ _ (check_no_args s)) in Hfull.
    unfold bind, read_modeled_csv, access in Hfull.
    destruct (modeled_pwv_csv (world s)) as [raw|]; [|discriminate].
    exists raw. split; [reflexivity|].
    unfold convert_dates, bind in Hfull.
    destruct (np_vectorize fromtimestamp (date_col raw) _) as [[e|dates] s2];
      [discriminate|].
    cbv beta iota in Hfull. injection Hfull as <- _.
    cbn [ret fst set_unit units colnames set_date_col].
    split; [reflexivity|]. split.
    + rewrite assoc_get_set_other by discriminate. apply assoc_get_set_same.
    + apply assoc_get_set_same.
Qed.

(** X7: on a table file without rows both queries fail, with the
    ValueError of [np.vectorize] on an empty column, for every call that
    passes the argument checks, the call without arguments included:
    no empty table is ever returned from an empty file. *)
Theorem queries_refuse_empty_file year month day hour s :
  first_fault year month day hour = None ->
  (forall raw, measured_pwv_csv (world s) = Some raw -> rows raw = [] ->
               exists msg s',
                 measured_pwv year month day hour s
                 = (inl (ValueError msg), s'))
  /\ (forall raw, modeled_pwv_csv (world s) = Some raw -> rows raw = [] ->
                  exists msg s',
                    modeled_pwv year month day hour s
                    = (inl (ValueError msg), s')).
Proof.
  intros Hf. split; intros raw Hw Hrows.
  - rewrite (measured_pwv_factors _ _ _ _ s Hf).
    unfold measured_pwv, bind, read_measured_csv, access, convert_dates,
      date_col.
    rewrite check_no_args, Hw, Hrows. cbn. eauto.
  - rewrite (modeled_pwv_factors _ _ _ _ s Hf).
    unfold modeled_pwv, bind, read_modeled_csv, access, convert_dates,
      date_col.
    rewrite check_no_args, Hw, Hrows. cbn. eauto.
Qed.

(** X8: the queries never change the world.  A call that fails the
    argument checks accesses nothing; a call that passes them makes one
    access, whatever it returns: [measured_pwv] reads
    [./pwv_tables/measured_pwv.csv], [modeled_pwv] reads
    [./pwv_tables/modeled_pwv.csv], and neither lists a directory. *)
Theorem queries_read_one_file year month day hour s :
  let read path := mkState (world s) (log s ++ [EvRead path]) in
  snd (measured_pwv year month day hour s)
  = match first_fault year month day hour with
    | Some _ => s
    | None => read "./pwv_tables/measured_pwv.csv"
    end
  /\ snd (modeled_pwv year month day hour s)
     = match first_fault year month day hour with
       | Some _ => s
       | None => read "./pwv_tables/modeled_pwv.csv"
       end.
Proof.
  cbv zeta. destruct (first_fault year month day hour) as [t|] eqn:Hf.
  - assert (Hc : check_date_args year month day hour s
                 = (inl (error_of t), s))
      by (rewrite check_date_args_first_fault, Hf; reflexivity).
    destruct (check_fails_both _ _ _ _ _ _ Hc) as [-> ->]. now split.
  - split.
    + unfold measured_pwv.
      rewrite (bind_inr _ _ _ tt s)
        by (rewrite check_date_args_first_fault, Hf; reflexivity).
      unfold bind at 1. unfold read_measured_csv, access.
      destruct (measured_pwv_csv (world s)) as [raw|]; [|reflexivity].
      apply (keeps_state_bind (convert_dates raw)).
      * apply keeps_state_convert_dates.
      * intros t. apply keeps_state_refine_by_date.
    + unfold modeled_pwv.
      rewrite (bind_inr _ _ _ tt s)
        by (rewrite check_date_args_first_fault, Hf; reflexivity).
      unfold bind at 1. unfold read_modeled_csv, access.
      destruct (modeled_pwv_csv (world s)) as [raw|]; [|reflexivity].
      apply (keeps_state_bind (convert_dates raw)).
      * apply keeps_state_convert_dates.
      * intros t. apply keeps_state_refine_by_date.
Qed.

End QueryProperties.

Lemma queries_return_kept_rows_witness :
  exists full,
    measured_pwv (P := utc_platform) PyNone PyNone PyNone PyNone midnight_state
    = (inr full,
       mkState midnight_world [EvRead "./pwv_tables/measured_pwv.csv"])
    /\ midnight_measured
       = keep_rows (kept (PyInt 2011) (PyInt 1) (PyInt 1) (PyInt 0)) full.
Proof.
  apply (proj1 (queries_return_kept_rows (P := utc_platform)
                  (PyInt 2011) (PyInt 1) (PyInt 1) (PyInt 0) midnight_state)).
  reflexivity.
Defined.

Lemma queries_refine_step_by_step_witness :
  let s' := mkState midnight_world [EvRead "./pwv_tables/measured_pwv.csv"] in
  truthy (PyInt 2011) = true
  /\ measured_pwv (P := utc_platform) (PyInt 2011) (PyInt 1) (PyInt 1) PyNone
                  midnight_state = (inr midnight_measured, s')
  /\ first_fault (PyInt 2011) (PyInt 1) (PyInt 1) (PyInt 1) = None
  /\ measured_pwv (P := utc_platform) (PyInt 2011) (PyInt 1) (PyInt 1)
                  (PyInt 1) midnight_state
     = (inr (keep_rows (fun x => refined_by (PyInt 1) (dt_hour x))
                       midnight_measured), s').
Proof.
  cbv zeta. split; [reflexivity|]. split; [reflexivity|].
  split; [reflexivity|].
  apply (proj1 (queries_refine_step_by_step (P := utc_platform)
                  (PyInt 2011) (PyInt 1) (PyInt 1) (PyInt 1) midnight_state
                  _ eq_refl)); reflexivity.
Defined.

Lemma queries_set_units_witness :
  exists raw,
    modeled_pwv_csv (world midnight_state) = Some raw
    /\ colnames midnight_modeled = colnames raw
    /\ assoc_get "date" (units midnight_modeled) = Some "UTC"
    /\ assoc_get "pwv" (units midnight_modeled) = Some "mm".
Proof.
  apply (proj2 (queries_set_units (P := utc_platform)
                  (PyInt 2011) PyNone PyNone PyNone midnight_state)
           midnight_modeled
           (mkState midnight_world [EvRead "./pwv_tables/modeled_pwv.csv"])).
  reflexivity.
Defined.

Lemma queries_refuse_empty_file_witness :
  first_fault PyNone PyNone PyNone PyNone = None
  /\ exists msg s',
      measured_pwv (P := utc_platform) PyNone PyNone PyNone PyNone
                   (mkState empty_world []) = (inl (ValueError msg), s').
Proof.
  split; [reflexivity|].
  apply (proj1 (queries_refuse_empty_file (P := utc_platform)
                  PyNone PyNone PyNone PyNone (mkState empty_world [])
                  eq_refl) (mkTable ["date"; "KITT"] [] []));
    reflexivity.
Defined.

Lemma measured_pwv_filters_witness :
  let s' := mkState midnight_world [EvRead "./pwv_tables/measured_pwv.csv"] in
  measured_pwv (P := utc_platform) PyNone PyNone PyNone PyNone midnight_state
  = (inr midnight_measured, s')
  /\ measured_pwv (P := utc_platform) (PyInt 2011) (PyInt 1) (PyInt 1)
                  (PyInt 1) midnight_state
     = (inr (filter_series (PyInt 2011) (PyInt 1) (PyInt 1) (PyInt 1)
                           midnight_measured), s').
Proof.
  cbv zeta. split; [reflexivity|].
  apply (measured_pwv_filters (P := utc_platform)
           (PyInt 2011) (PyInt 1) (PyInt 1) (PyInt 1) midnight_state);
    try reflexivity.
  intros v [<-|[<-|[<-|[<-|[]]]]]; right; reflexivity.
Defined.

Lemma modeled_pwv_filters_witness :
  let s' := mkState midnight_world [EvRead "./pwv_tables/modeled_pwv.csv"] in
  modeled_pwv (P := utc_platform) PyNone PyNone PyNone PyNone midnight_state
  = (inr midnight_modeled, s')
  /\ modeled_pwv (P := utc_platform) (PyInt 2011) (PyInt 1) PyNone PyNone
                 midnight_state
     = (inr (filter_series (PyInt 2011) (PyInt 1) PyNone PyNone
                           midnight_modeled), s').
Proof.
  cbv zeta. split; [reflexivity|].
  apply (modeled_pwv_filters (P := utc_platform)
           (PyInt 2011) (PyInt 1) PyNone PyNone midnight_state);
    try reflexivity.
  intros v [<-|[<-|[<-|[<-|[]]]]]; first [right; reflexivity
                                        | left; reflexivity].
Defined.

(** ** Loading the reference curves *)

Lemma access_inv {A} ev (get : World -> option A) e s a s' :
  access ev get e s = (inr a, s') ->
  get (world s) = Some a /\ s' = mkState (world s) (log s ++ [ev]).
Proof.
  unfold access. destruct (get (world s)); [|discriminate].
  intros H. injection H as <- <-. now split.
Qed.

Section Loading.

Context {P : Platform}.

Lemma pwv_of_file_inv file s q s' :
  pwv_of_file file s = (inr q, s') -> level_of file = Some q /\ s' = s.
Proof.
  unfold pwv_of_file, level_of.
  destruct (nth_error _ 3) as [fld|]; [|discriminate].
  destruct (float_of_str fld); [|discriminate].
  intros H. injection H as <- <-. now split.
Qed.

Lemma pwv_of_file_level file s q :
  level_of file = Some q -> pwv_of_file file s = (inr q, s).
Proof.
  unfold pwv_of_file, level_of.
  destruct (nth_error _ 3) as [fld|]; [|discriminate].
  now intros ->.
Qed.

Lemma read_atm_mods_skips_other_files_aux files :
  forall atm_mods s,
    read_atm_mods files atm_mods s
    = read_atm_mods (csv_files files) atm_mods s.
Proof.
  induction files as [|file rest IH]; intros atm_mods s; [reflexivity|].
  cbn [read_atm_mods csv_files filter].
  destruct (endswith file ".csv") eqn:He; [|apply IH].
  cbn [read_atm_mods]. rewrite He. unfold bind.
  destruct (pwv_of_file file s) as [[e|q] s1]; [reflexivity|].
  destruct (read_atm_model file _ s1) as [[e|tab] s2]; [reflexivity|].
  apply IH.
Qed.

(** X9: the files of the directory whose names do not end in [.csv]
    take no part in loading: they are not parsed, not read, and the
    dictionary or the error, and the log, are those of the listing
    without them. *)
Theorem read_atm_mods_skips_other_files files atm_mods s :
  read_atm_mods files atm_mods s
  = read_atm_mods (csv_files files) atm_mods s.
Proof. apply read_atm_mods_skips_other_files_aux. Qed.

Lemma read_atm_mods_accesses files :
  forall atm_mods s atm_mods' s',
    read_atm_mods files atm_mods s = (inr atm_mods', s') ->
    world s' = world s /\ log s' = log s ++ reads_of (csv_files files).
Proof.
  induction files as [|file rest IH]; intros d s d' s' H;
    cbn [read_atm_mods] in H.
  - injection H as <- <-. split; [reflexivity|]. now rewrite app_nil_r.
  - cbn [csv_files filter].
    destruct (endswith file ".csv"); [|exact (IH _ _ _ _ H)].
    apply bind_inr_inv in H. destruct H as (q & s1 & Hq & H).
    apply pwv_of_file_inv in Hq. destruct Hq as [_ ->].
    apply bind_inr_inv in H. destruct H as (tab & s2 & Ht & H).
    unfold read_atm_model in Ht.
    apply access_inv in Ht. destruct Ht as [_ ->].
    destruct (IH _ _ _ _ H) as [Hw Hl]. cbn [world log] in *.
    split; [exact Hw|]. rewrite Hl. cbn [reads_of map].
    now rewrite <- app_assoc.
Qed.

(** X10: a call to [transmission] that returns a curve has made these
    accesses, in this order, and no other: it read
    [./pwv_tables/modeled_pwv.csv], listed [./atm_models], and read each
    file of the listing whose name ends in [.csv], in the order of the
    listing.  It never reads the table of measurements and leaves the
    world as it was. *)
Theorem transmission_accesses date airmass s rows s' :
  transmission date airmass s = (inr rows, s') ->
  exists entries,
    atm_models (world s) = Some entries
    /\ world s' = world s
    /\ log s' = log s
                ++ [EvRead "./pwv_tables/modeled_pwv.csv";
                    EvListdir "./atm_models"]
                ++ reads_of (csv_files (map fst entries)).
Proof.
  intros H. unfold transmission in H.
  destruct (negb (isinstance_datetime date)); [discriminate|].
  destruct (negb (isinstance_float_int airmass)); [discriminate|].
  apply bind_inr_inv in H. destruct H as (pwv_los & s0 & Hlos & H).
  apply bind_inr_inv in H. destruct H as (atm_mods & s1 & Hload & H).
  apply transmission_curve_inv in H. destruct H as [-> _].
  unfold los_pwv in Hlos. apply bind_inr_inv in Hlos.
  destruct Hlos as (z & s2 & Hz & Hret). injection Hret as _ <-.
  unfold zenith_pwv in Hz. apply bind_inr_inv in Hz.
  destruct Hz as (t & s3 & Hr & Hi). unfold read_modeled_csv in Hr.
  apply access_inv in Hr. destruct Hr as [_ ->].
  apply np_interp_inv in Hi. destruct Hi as [_ ->].
  unfold load_atm_mods in Hload. apply bind_inr_inv in Hload.
  destruct Hload as (files & s4 & Hl & Hr). unfold listdir_atm_models in Hl.
  apply access_inv in Hl. destruct Hl as [Hl ->]. cbn [world log] in *.
  destruct (atm_models (world s)) as [entries|]; [|discriminate].
  injection Hl as <-. exists entries. split; [reflexivity|].
  apply read_atm_mods_accesses in Hr. destruct Hr as [Hw Hlog].
  cbn [world log] in *. split; [exact Hw|]. rewrite Hlog.
  now rewrite <- !app_assoc.
Qed.

(** X11: when no file of the directory has a name ending in [.csv], a
    well-typed call that finds the PWV along the line of sight fails
    with the ValueError of [min] on an empty sequence, after listing the
    directory and without reading any file of it. *)
Theorem transmission_without_curves date airmass s pwv_los s0 entries :
  isinstance_datetime date = true ->
  isinstance_float_int airmass = true ->
  los_pwv date airmass s = (inr pwv_los, s0) ->
  atm_models (world s0) = Some entries ->
  csv_files (map fst entries) = [] ->
  transmission date airmass s
  = (inl (ValueError "min() arg is an empty sequence"),
     mkState (world s0) (log s0 ++ [EvListdir "./atm_models"])).
Proof.
  intros Hd Ha Hlos Hw Hcsv. unfold transmission. rewrite Hd, Ha.
  cbn [negb]. rewrite (bind_inr _ _ _ _ _ Hlos).
  unfold load_atm_mods, listdir_atm_models, bind, access. rewrite Hw.
  cbn [option_map]. rewrite read_atm_mods_skips_other_files_aux, Hcsv.
  reflexivity.
Qed.

(** X12: when the table of modeled PWV has no rows, a well-typed call
    fails with the ValueError of [np.interp] on empty sample points,
    right after reading the table: the directory of the reference
    curves is not listed. *)
Theorem transmission_empty_series date airmass s pwv_model :
  isinstance_datetime date = true ->
  isinstance_float_int airmass = true ->
  modeled_pwv_csv (world s) = Some pwv_model ->
  rows pwv_model = [] ->
  transmission date airmass s
  = (inl (ValueError "array of sample points is empty"),
     mkState (world s) (log s ++ [EvRead "./pwv_tables/modeled_pwv.csv"])).
Proof.
  intros Hd Ha Hw Hrows. unfold transmission. rewrite Hd, Ha. cbn [negb].
  unfold los_pwv, zenith_pwv, read_modeled_csv, bind, access.
  rewrite Hw. unfold np_interp, date_col. rewrite Hrows. reflexivity.
Qed.

End Loading.

(** ** The keys of the dictionary *)

Lemma Qeq_bool_refl k : Qeq_bool k k = true.
Proof. apply Qeq_bool_iff. reflexivity. Qed.

Lemma dict_set_keys_In {V} k (v : V) (d : dict V) k0 :
  In k0 (keys (dict_set k v d)) -> In k0 (keys d) \/ k0 = k.
Proof.
  induction d as [|[k' v'] d IH]; cbn [dict_set keys map fst].
  - intros [<-|[]]. now right.
  - destruct (Qeq_bool k' k); cbn [map fst]; [now left|].
    intros [<-|H]; [left; now left|].
    destruct (IH H) as [H'|H']; [left; now right | now right].
Qed.

Lemma dict_set_keys_old {V} k (v : V) (d : dict V) k0 :
  InA Qeq k0 (keys d) -> InA Qeq k0 (keys (dict_set k v d)).
Proof.
  induction d as [|[k' v'] d IH]; cbn [dict_set keys map fst]; intros H.
  - inversion H.
  - destruct (Qeq_bool k' k); cbn [map fst]; [exact H|].
    inversion H as [? ? Heq|? ? Hin]; subst;
      [now apply InA_cons_hd | apply InA_cons_tl; now apply IH].
Qed.

Lemma dict_set_keys_new {V} k (v : V) (d : dict V) :
  InA Qeq k (keys (dict_set k v d)).
Proof.
  induction d as [|[k' v'] d IH]; cbn [dict_set keys map fst].
  - apply InA_cons_hd. reflexivity.
  - destruct (Qeq_bool k' k) eqn:He; cbn [map fst].
    + apply InA_cons_hd. apply Qeq_bool_iff in He. now symmetry.
    + now apply InA_cons_tl.
Qed.

Lemma dict_set_keys_inv {V} k (v : V) (d : dict V) k0 :
  InA Qeq k0 (keys (dict_set k v d)) -> InA Qeq k0 (keys d) \/ (k0 == k)%Q.
Proof.
  induction d as [|[k' v'] d IH]; cbn [dict_set keys map fst]; intros H.
  - inversion H as [? ? Heq|? ? Hin]; subst; [now right | inversion Hin].
  - destruct (Qeq_bool k' k); cbn [map fst] in H; [now left|].
    inversion H as [? ? Heq|? ? Hin]; subst.
    + left. now apply InA_cons_hd.
    + destruct (IH Hin) as [H'|H']; [left; now apply InA_cons_tl | now right].
Qed.

Lemma dict_set_keys_NoDupA {V} k (v : V) (d : dict V) :
  NoDupA Qeq (keys d) -> NoDupA Qeq (keys (dict_set k v d)).
Proof.
  induction d as [|[k' v'] d IH]; cbn [dict_set keys map fst]; intros H.
  - constructor; [intros Hin; inversion Hin | constructor].
  - destruct (Qeq_bool k' k) eqn:He; cbn [map fst]; [exact H|].
    inversion H as [|? ? Hnot Hnd]; subst. constructor; [|now apply IH].
    intros Hin. apply dict_set_keys_inv in Hin.
    destruct Hin as [Hin|Heq]; [now apply Hnot|].
    apply Qeq_bool_false in He. now apply He.
Qed.

Section Keys.

Context {P : Platform}.

Lemma read_atm_mods_keys files :
  forall atm_mods s atm_mods' s',
    read_atm_mods files atm_mods s = (inr atm_mods', s') ->
    (forall file, In file (csv_files files) ->
                  exists q, level_of file = Some q
                            /\ InA Qeq q (keys atm_mods'))
    /\ (forall k, InA Qeq k (keys atm_mods) -> InA Qeq k (keys atm_mods'))
    /\ (forall k, In k (keys atm_mods') ->
                  In k (keys atm_mods)
                  \/ exists file, In file (csv_files files)
                                  /\ level_of file = Some k)
    /\ (NoDupA Qeq (keys atm_mods) -> NoDupA Qeq (keys atm_mods')).
Proof.
  induction files as [|file rest IH]; intros d s d' s' H;
    cbn [read_atm_mods] in H.
  - injection H as <- <-. repeat split; try tauto. intros file [].
  - cbn [csv_files filter].
    destruct (endswith file ".csv"); [|exact (IH _ _ _ _ H)].
    apply bind_inr_inv in H. destruct H as (q & s1 & Hq & H).
    apply pwv_of_file_inv in Hq. destruct Hq as [Hq ->].
    apply bind_inr_inv in H. destruct H as (tab & s2 & _ & H).
    destruct (IH _ _ _ _ H) as (Hfiles & Hold & Hfrom & Hnd).
    split; [|split; [|split]].
    + intros f [<-|Hf]; [|now apply Hfiles].
      exists q. split; [exact Hq|]. apply Hold. apply dict_set_keys_new.
    + intros k Hk. apply Hold. now apply dict_set_keys_old.
    + intros k Hk. destruct (Hfrom k Hk) as [Hin|(f & Hf & Hl)].
      * apply dict_set_keys_In in Hin. destruct Hin as [Hin| ->];
          [now left|]. right. exists file. split; [now left | exact Hq].
      * right. exists f. split; [now right | exact Hl].
    + intros Hd. apply Hnd. now apply dict_set_keys_NoDupA.
Qed.

(** X13: when the reference curves load, every file of the listing
    whose name ends in [.csv] has a name with a fourth [_]-separated
    field that parses as a number, and that number is a key of the
    dictionary; every key is the number of such a file; and no two keys
    are equal as numbers: files of one level make one entry. *)
Theorem load_atm_mods_keys s atm_mods s' :
  load_atm_mods s = (inr atm_mods, s') ->
  exists entries,
    atm_models (world s) = Some entries
    /\ (forall file, In file (csv_files (map fst entries)) ->
                     exists q, level_of file = Some q
                               /\ InA Qeq q (keys atm_mods))
    /\ (forall k, In k (keys atm_mods) ->
                  exists file, In file (csv_files (map fst entries))
                               /\ level_of file = Some k)
    /\ NoDupA Qeq (keys atm_mods).
Proof.
  intros H. unfold load_atm_mods in H. apply bind_inr_inv in H.
  destruct H as (files & s1 & Hl & H). unfold listdir_atm_models in Hl.
  apply access_inv in Hl. destruct Hl as [Hl _].
  destruct (atm_models (world s)) as [entries|]; [|discriminate].
  injection Hl as <-. exists entries. split; [reflexivity|].
  destruct (read_atm_mods_keys _ _ _ _ _ H) as (Hfiles & _ & Hfrom & Hnd).
  split; [exact Hfiles|]. split.
  - intros k Hk. destruct (Hfrom k Hk) as [[]|Hf]. exact Hf.
  - apply Hnd. constructor.
Qed.

End Keys.

(** ** The grid of the result *)

Lemma dict_get_entry {V} k (d : dict V) v :
  dict_get k d = Some v -> exists k0, In (k0, v) d /\ (k0 == k)%Q.
Proof.
  induction d as [|[k' v'] d IH]; cbn [dict_get]; [discriminate|].
  destruct (Qeq_bool k' k) eqn:He.
  - intros H. injection H as <-. exists k'. split; [now left|].
    now apply Qeq_bool_iff.
  - intros H. destruct (IH H) as (k0 & Hin & Heq). exists k0.
    split; [now right | exact Heq].
Qed.

Lemma dict_get_unique {V} k (d : dict V) v k0 v0 :
  NoDupA Qeq (keys d) ->
  dict_get k d = Some v -> In (k0, v0) d -> (k0 == k)%Q -> v0 = v.
Proof.
  induction d as [|[k' v'] d IH]; intros Hnd Hg Hin Heq; [now elim Hin|].
  cbn [keys map fst] in Hnd. inversion Hnd as [|? ? Hnot Hnd']; subst.
  cbn [dict_get] in Hg. destruct (Qeq_bool k' k) eqn:He.
  - injection Hg as <-. destruct Hin as [H|H]; [now injection H|].
    apply Qeq_bool_iff in He. elim Hnot.
    apply InA_alt. exists k0. split; [now rewrite He, Heq|].
    exact (in_map fst _ _ H).
  - destruct Hin as [H|H].
    + injection H as -> ->. apply Qeq_bool_false in He. now elim He.
    + now apply IH.
Qed.

Section GridOfResult.

Context {P : Platform}.

Lemma load_atm_mods_distinct s atm_mods s' :
  load_atm_mods s = (inr atm_mods, s') -> NoDupA Qeq (keys atm_mods).
Proof.
  intros H. unfold load_atm_mods in H. apply bind_inr_inv in H.
  destruct H as (files & s1 & _ & H).
  destruct (read_atm_mods_keys _ _ _ _ _ H) as (_ & _ & _ & Hnd).
  apply Hnd. constructor.
Qed.

Local Open Scope Q_scope.

(** C5: when [transmission] returns a curve, the reference curves were
    loaded, at least one of them, and the wavelength column of the
    result is the wavelength column of the reference curve of the least
    PWV level, the curve the dictionary holds under a key that equals
    that level: one row for each point of that grid, in the order of the
    grid, ascending when the grid is.  It does return a curve when the
    arguments are well typed, the PWV along the line of sight is found,
    a curve is loaded and no curve is shorter than that of the least
    level. *)
Theorem transmission_grid date airmass s :
  (forall rows s',
      transmission date airmass s = (inr rows, s') ->
      exists pwv_los s0 atm_mods k tab,
        los_pwv date airmass s = (inr pwv_los, s0)
        /\ load_atm_mods s0 = (inr atm_mods, s')
        /\ py_min (keys atm_mods) = Some k
        /\ (forall k', In k' (keys atm_mods) -> k <= k')
        /\ dict_get k atm_mods = Some tab
        /\ map fst rows = map fst tab
        /\ List.length rows = List.length tab
        /\ (StronglySorted Qlt (map fst tab) ->
            StronglySorted Qlt (map fst rows))
        /\ (exists k0, In (k0, tab) atm_mods /\ k0 == k)
        /\ (forall k0 tab0, In (k0, tab0) atm_mods -> k0 == k -> tab0 = tab))
  /\ (forall pwv_los s0 atm_mods s1,
         isinstance_datetime date = true ->
         isinstance_float_int airmass = true ->
         los_pwv date airmass s = (inr pwv_los, s0) ->
         load_atm_mods s0 = (inr atm_mods, s1) ->
         atm_mods <> [] ->
         (forall k tab c,
             py_min (keys atm_mods) = Some k ->
             dict_get k atm_mods = Some tab ->
             In c (map snd atm_mods) ->
             (List.length tab <= List.length c)%nat) ->
         exists rows, transmission date airmass s = (inr rows, s1)).
Proof.
  split.
  - intros rows s' H. unfold transmission in H.
    destruct (negb (isinstance_datetime date)); [discriminate|].
    destruct (negb (isinstance_float_int airmass)); [discriminate|].
    apply bind_inr_inv in H. destruct H as (pwv_los & s0 & Hlos & H).
    apply bind_inr_inv in H. destruct H as (atm_mods & s1 & Hload & H).
    apply transmission_curve_inv in H.
    destruct H as (-> & k & tab & zs & Hk & Hg & Hlen & -> & _).
    exists pwv_los, s0, atm_mods, k, tab.
    assert (Hgrid : map fst (combine (map fst tab) zs) = map fst tab).
    { apply map_fst_combine. now rewrite length_map. }
    split; [exact Hlos|]. split; [exact Hload|]. split; [exact Hk|].
    split; [exact (proj2 (py_min_least _ _ Hk))|]. split; [exact Hg|].
    split; [exact Hgrid|]. split; [|split; [|split]].
    + rewrite length_combine, length_map, Hlen. apply Nat.min_id.
    + now rewrite Hgrid.
    + exact (dict_get_entry _ _ _ Hg).
    + intros k0 tab0 Hin Heq.
      pose proof (load_atm_mods_distinct _ _ _ Hload) as Hnd.
      exact (dict_get_unique _ _ _ _ _ Hnd Hg Hin Heq).
  - intros pwv_los s0 atm_mods s1 Hd Ha Hlos Hload Hne Hlen.
    unfold transmission. rewrite Hd, Ha. cbn [negb].
    assert (Hcurve : exists rows,
               transmission_curve atm_mods pwv_los s1 = (inr rows, s1)).
    { unfold transmission_curve.
      destruct (py_min (keys atm_mods)) as [k|] eqn:Hk.
      - destruct (dict_get_key k atm_mods (proj1 (py_min_least _ _ Hk)))
          as (tab & Hg & _).
        rewrite Hg. apply calc_rows_ok; [exact Hne|].
        intros c Hc. rewrite length_map. exact (Hlen k tab c eq_refl Hg Hc).
      - destruct atm_mods; [now elim Hne | discriminate]. }
    destruct Hcurve as [rows Hrows]. exists rows.
    etransitivity; [apply bind_inr; exact Hlos|]. cbv beta.
    etransitivity; [apply bind_inr; exact Hload|]. exact Hrows.
Qed.

End GridOfResult.

(** The two curves on different grids, the file of 6.0 mm listed first:
    the result is on the grid of the curve of 4.0 mm. *)
Lemma transmission_grid_witness :
  let date := PyDatetime noon in
  let s := mkState world_two_grids [] in
  exists rows s',
    transmission (P := utc_platform) date (PyInt 1) s = (inr rows, s')
    /\ map fst rows = [7000%Q; 7001%Q]
    /\ exists pwv_los s0 atm_mods k tab,
        los_pwv (P := utc_platform) date (PyInt 1) s = (inr pwv_los, s0)
        /\ load_atm_mods (P := utc_platform) s0 = (inr atm_mods, s')
        /\ py_min (keys atm_mods) = Some k
        /\ (forall k', In k' (keys atm_mods) -> (k <= k')%Q)
        /\ dict_get k atm_mods = Some tab
        /\ map fst rows = map fst tab
        /\ List.length rows = List.length tab
        /\ (StronglySorted Qlt (map fst tab) ->
            StronglySorted Qlt (map fst rows))
        /\ (exists k0, In (k0, tab) atm_mods /\ (k0 == k)%Q)
        /\ (forall k0 tab0,
               In (k0, tab0) atm_mods -> (k0 == k)%Q -> tab0 = tab).
Proof.
  cbv zeta. eexists. eexists. split; [|split].
  - apply run_eq. vm_compute. reflexivity.
  - reflexivity.
  - apply (proj1 (transmission_grid (P := utc_platform)
                    (PyDatetime noon) (PyInt 1)
                    (mkState world_two_grids []))).
    vm_compute. reflexivity.
Defined.

(** ** One curve, short curves *)

Section Curves.

Context {P : Platform}.

Lemma interp_value_single x k v : interp_value x [k] [v] = v.
Proof.
  unfold interp_value. cbn [List.length]. change (Z.of_nat 1 =? 1) with true.
  cbv iota. unfold item. cbn.
  destruct (Qltb x k); [reflexivity|]. now destruct (Qltb k x).
Qed.

Lemma calc_rows_single k pwv_los s :
  forall post pre trans_func,
    calc_rows [(k, pre ++ post)] pwv_los (List.length pre) (map fst post)
              trans_func s
    = (inr (trans_func ++ post), s).
Proof.
  induction post as [|[w v] post IH]; intros pre acc.
  - cbn [map calc_rows]. now rewrite app_nil_r.
  - cbn [map fst calc_rows].
    assert (Hn : nth_error (map snd (pre ++ (w, v) :: post))
                           (List.length pre) = Some v).
    { rewrite map_app, nth_error_app2; rewrite length_map;
        [now rewrite Nat.sub_diag | apply Nat.le_refl]. }
    assert (Ht : trans_at (List.length pre) [(k, pre ++ (w, v) :: post)] s
                 = (inr [v], s)).
    { cbn [trans_at]. rewrite Hn. reflexivity. }
    assert (Hz : np_interp pwv_los (keys [(k, pre ++ (w, v) :: post)]) [v] s
                 = (inr v, s)).
    { change (keys [(k, pre ++ (w, v) :: post)]) with [k].
      rewrite np_interp_ok by (discriminate || reflexivity).
      now rewrite interp_value_single. }
    specialize (IH (pre ++ [(w, v)]) (acc ++ [(w, v)])).
    rewrite <- !app_assoc, length_app, Nat.add_1_r in IH. cbn [app] in IH.
    etransitivity; [apply bind_inr; exact Ht|]. cbv beta.
    etransitivity; [apply bind_inr; exact Hz|]. exact IH.
Qed.

(** X14: with a single reference curve, [transmission] returns that
    curve as it is, wavelengths and transmissions, whatever the PWV
    along the line of sight: no other curve to interpolate with. *)
Theorem transmission_curve_single k tab pwv_los s :
  transmission_curve [(k, tab)] pwv_los s = (inr tab, s).
Proof.
  unfold transmission_curve. cbn [keys map fst py_min fold_left dict_get].
  rewrite Qeq_bool_refl. exact (calc_rows_single k pwv_los s tab [] []).
Qed.

Lemma trans_at_short i (atm_mods : dict AtmTable) s c :
  In c (map snd atm_mods) -> (List.length c <= i)%nat ->
  exists msg, trans_at i atm_mods s = (inl (IndexError msg), s).
Proof.
  induction atm_mods as [|[k tab] rest IH]; intros Hin Hlen; [now elim Hin|].
  cbn [trans_at]. destruct (nth_error (map snd tab) i) as [t|] eqn:Hn.
  - destruct Hin as [Hc|Hin].
    + cbn [snd] in Hc. subst c.
      assert (nth_error (map snd tab) i = None)
        by (apply nth_error_None; now rewrite length_map).
      congruence.
    + destruct (IH Hin Hlen) as [msg Hmsg]. exists msg.
      now apply bind_inl.
  - now eexists.
Qed.

Lemma trans_at_outcome i (atm_mods : dict AtmTable) s :
  trans_at i atm_mods s = (inr (map snd (samples_at i atm_mods)), s)
  \/ exists msg, trans_at i atm_mods s = (inl (IndexError msg), s).
Proof.
  induction atm_mods as [|[k tab] rest IH]; [now left|].
  cbn [trans_at]. destruct (nth_error (map snd tab) i) as [t|] eqn:Hn.
  - destruct IH as [IH|[msg IH]].
    + left. rewrite (bind_inr _ _ _ _ _ IH). unfold ret.
      cbn [samples_at map snd fst]. do 3 f_equal.
      symmetry. now apply nth_error_nth.
    + right. exists msg. now apply bind_inl.
  - right. now eexists.
Qed.

Lemma calc_rows_short atm_mods pwv_los c wavelengths :
  atm_mods <> [] -> In c (map snd atm_mods) ->
  forall i trans_func s,
    (i <= List.length c)%nat ->
    (List.length c < i + List.length wavelengths)%nat ->
    exists msg,
      calc_rows atm_mods pwv_los i wavelengths trans_func s
      = (inl (IndexError msg), s).
Proof.
  intros Hne Hin. induction wavelengths as [|w rest IH];
    intros i acc s Hle Hlt; cbn [List.length] in Hlt; [lia|].
  cbn [calc_rows].
  destruct (trans_at_outcome i atm_mods s) as [Ht|[msg Ht]].
  - assert (Hi : (i < List.length c)%nat).
    { destruct (Nat.lt_ge_cases i (List.length c)) as [H|H]; [exact H|].
      destruct (trans_at_short i atm_mods s c Hin H) as [msg Hmsg].
      congruence. }
    assert (Hk : keys atm_mods <> [])
      by (destruct atm_mods; [now elim Hne | discriminate]).
    assert (Hl : List.length (map snd (samples_at i atm_mods))
                 = List.length (keys atm_mods))
      by (unfold samples_at, keys; now rewrite !length_map).
    pose proof (np_interp_ok pwv_los _ _ s Hk Hl) as Hz.
    destruct (IH (S i)
                 (acc ++ [(w, interp_value pwv_los (keys atm_mods)
                                (map snd (samples_at i atm_mods)))]) s)
      as [msg Hmsg]; [lia | lia |].
    exists msg.
    etransitivity; [apply bind_inr; exact Ht|]. cbv beta.
    etransitivity; [apply bind_inr; exact Hz|]. exact Hmsg.
  - exists msg. now apply bind_inl.
Qed.

(** X15: when some reference curve has fewer rows than the curve of the
    least level, whose wavelengths are walked, the computation of the
    curve fails with an IndexError and returns no row. *)
Theorem transmission_curve_short_curve (atm_mods : dict AtmTable) pwv_los s
    k (tab c : AtmTable) :
  py_min (keys atm_mods) = Some k ->
  dict_get k atm_mods = Some tab ->
  In c (map snd atm_mods) ->
  (List.length c < List.length tab)%nat ->
  exists msg,
    transmission_curve atm_mods pwv_los s = (inl (IndexError msg), s).
Proof.
  intros Hk Hg Hin Hlt. unfold transmission_curve. rewrite Hk, Hg.
  apply (calc_rows_short atm_mods pwv_los c); trivial.
  - destruct atm_mods; [discriminate Hk | discriminate].
  - lia.
  - rewrite length_map. lia.
Qed.

End Curves.

(** ** The values of the interpolation *)

Local Open Scope Q_scope.

Lemma sorted_neighbours front ta (va : Q) tb (vb : Q) rest :
  StronglySorted Qlt (map fst (front ++ (ta, va) :: (tb, vb) :: rest)) ->
  ta < tb.
Proof.
  induction front as [|a front IH]; cbn [app map fst]; intros Hs.
  - apply (sorted_head_lt _ _ _ Hs). now left.
  - apply IH. exact (sorted_tail _ _ Hs).
Qed.

(** At a sample point the curve takes the value of the sample. *)
Lemma piecewise_linear_at_sample series x z t v :
  StronglySorted Qlt (map fst series) ->
  piecewise_linear series x z ->
  In (t, v) series -> x == t -> z == v.
Proof.
  intros Hs (Hfirst & _ & Hmid) Hin Hx.
  apply in_split in Hin. destruct Hin as (front & rest & ->).
  destruct front as [|a front] using rev_ind.
  - apply (Hfirst t v rest eq_refl). lra.
  - clear IHfront. destruct a as [ta va]. rewrite <- app_assoc in *.
    cbn [app] in *.
    pose proof (sorted_neighbours _ _ _ _ _ _ Hs) as Hlt.
    rewrite (Hmid front ta va t v rest eq_refl) by lra.
    now apply chord_right.
Qed.

Local Close Scope Q_scope.

Section Values.

Context {P : Platform}.

Lemma trans_at_lengths i (atm_mods : dict AtmTable) s ts s' c :
  trans_at i atm_mods s = (inr ts, s') ->
  In c (map snd atm_mods) -> (i < List.length c)%nat.
Proof.
  intros H Hin.
  destruct (Nat.lt_ge_cases i (List.length c)) as [Hlt|Hge]; [exact Hlt|].
  destruct (trans_at_short i atm_mods s c Hin Hge) as [msg Hmsg].
  congruence.
Qed.

Lemma calc_rows_lengths atm_mods pwv_los wavelengths c :
  In c (map snd atm_mods) ->
  forall i trans_func s rows s',
    calc_rows atm_mods pwv_los i wavelengths trans_func s = (inr rows, s') ->
    (i + List.length wavelengths <= List.length c)%nat
    \/ wavelengths = [].
Proof.
  intros Hin. induction wavelengths as [|w rest IH];
    intros i acc s rows s' H; [now right|]. left.
  cbn [calc_rows] in H.
  apply bind_inr_inv in H. destruct H as (ts & s1 & Ht & H).
  pose proof (trans_at_lengths _ _ _ _ _ c Ht Hin) as Hi.
  apply bind_inr_inv in H. destruct H as (z & s2 & _ & H).
  destruct (IH _ _ _ _ _ H) as [Hle| ->]; cbn [List.length]; lia.
Qed.

Lemma transmission_curve_rows (atm_mods : dict AtmTable) pwv_los s rows s'
      i w z :
  transmission_curve atm_mods pwv_los s = (inr rows, s') ->
  nth_error rows i = Some (w, z) ->
  atm_mods <> []
  /\ z = interp_value pwv_los (map fst (samples_at i atm_mods))
                      (map snd (samples_at i atm_mods))
  /\ forall c, In c (map snd atm_mods) -> (i < List.length c)%nat.
Proof.
  intros H Hi. pose proof H as H0. apply transmission_curve_inv in H.
  destruct H as (_ & k & tab & zs & Hk & Hg & Hlen & -> & Hnth).
  assert (Hne : atm_mods <> [])
    by (destruct atm_mods; [discriminate Hk | discriminate]).
  split; [exact Hne|]. split.
  - rewrite keys_samples_at. apply Hnth.
    exact (nth_error_combine_snd _ _ _ _ _ Hi).
  - intros c Hc. unfold transmission_curve in H0. rewrite Hk, Hg in H0.
    assert (Hlt : (i < List.length (combine (map fst tab) zs))%nat).
    { apply nth_error_Some. congruence. }
    rewrite length_combine, length_map, Hlen, Nat.min_id in Hlt.
    destruct (calc_rows_lengths _ _ _ c Hc _ _ _ _ _ H0) as [Hle|Hnil].
    + rewrite length_map in Hle. lia.
    + destruct tab; [cbn in Hlt; lia | discriminate].
Qed.

Local Open Scope Q_scope.

(** X16: when the levels come out of the directory in ascending order
    and the PWV along the line of sight equals one of the levels, every
    row of the result carries the transmission of that level's curve at
    the row's index: at a reference level the reference curve is
    reproduced. *)
Theorem transmission_curve_at_level (atm_mods : dict AtmTable) pwv_los s
        rows s' k (tab : AtmTable) :
  StronglySorted Qlt (keys atm_mods) ->
  transmission_curve atm_mods pwv_los s = (inr rows, s') ->
  In (k, tab) atm_mods ->
  pwv_los == k ->
  forall i w z,
    nth_error rows i = Some (w, z) ->
    exists v, nth_error (map snd tab) i = Some v /\ z == v.
Proof.
  intros Hs H Hin Hk i w z Hi.
  destruct (transmission_curve_rows _ _ _ _ _ _ _ _ H Hi)
    as (Hne & -> & Hlen).
  assert (Hlt : (i < List.length (map snd tab))%nat).
  { rewrite length_map. apply Hlen. now apply (in_map snd _ (k, tab)). }
  exists (nth i (map snd tab) 0). split; [now apply nth_error_nth'|].
  apply (piecewise_linear_at_sample (samples_at i atm_mods) pwv_los _ k).
  - now rewrite keys_samples_at.
  - apply interp_value_piecewise_linear.
    + destruct atm_mods; [now elim Hne | discriminate].
    + now rewrite keys_samples_at.
  - unfold samples_at.
    exact (in_map (fun kv => (fst kv, nth i (map snd (snd kv)) 0))
                  _ (k, tab) Hin).
  - exact Hk.
Qed.

(** X18: on a modeled PWV series with at least one sample and strictly
    ascending timestamps, at a datetime whose epoch coordinate, as
    [timestamp] gives it, is the timestamp of a sample, the PWV at
    zenith is the value of that sample. *)
Theorem zenith_pwv_on_samples (d : datetime) s pwv_model :
  modeled_pwv_csv (world s) = Some pwv_model ->
  rows pwv_model <> [] ->
  StronglySorted Qlt (date_col pwv_model) ->
  exists z s',
    zenith_pwv (PyDatetime d) s = (inr z, s')
    /\ forall t v, In (t, v) (rows pwv_model) -> timestamp d == t -> z == v.
Proof.
  intros Hw Hne Hs.
  pose proof (zenith_pwv_value (PyDatetime d) s pwv_model Hw Hne) as Hz.
  change (obj_timestamp (PyDatetime d)) with (timestamp d) in Hz.
  eexists. eexists. split; [exact Hz|]. unfold date_col, value_col.
  intros t v Hin Hx.
  apply (piecewise_linear_at_sample (rows pwv_model) (timestamp d) _ t v Hs);
    trivial.
  now apply interp_value_piecewise_linear.
Qed.

End Values.

(** ** Runs of the further properties on a machine in UTC *)

Lemma transmission_accesses_witness :
  exists rows s',
    transmission (P := utc_platform) (PyDatetime noon) (PyInt 1)
                 (mkState world_4_6 []) = (inr rows, s')
    /\ exists entries,
        atm_models (world (mkState world_4_6 [])) = Some entries
        /\ world s' = world (mkState world_4_6 [])
        /\ log s' = log (mkState world_4_6 [])
                    ++ [EvRead "./pwv_tables/modeled_pwv.csv";
                        EvListdir "./atm_models"]
                    ++ reads_of (csv_files (map fst entries)).
Proof.
  eexists. eexists. split.
  - apply run_eq. vm_compute. reflexivity.
  - eapply (transmission_accesses (P := utc_platform) (PyDatetime noon)
              (PyInt 1) (mkState world_4_6 [])).
    vm_compute. reflexivity.
Defined.

Lemma transmission_without_curves_witness :
  csv_files (map fst [("README", @nil (Q * Q))]) = []
  /\ transmission (P := utc_platform) (PyDatetime noon) (PyInt 1)
                  (mkState world_no_csv [])
     = (inl (ValueError "min() arg is an empty sequence"),
        mkState world_no_csv [EvRead "./pwv_tables/modeled_pwv.csv";
                              EvListdir "./atm_models"]).
Proof.
  split; [reflexivity|].
  apply (transmission_without_curves (P := utc_platform) (PyDatetime noon)
           (PyInt 1) (mkState world_no_csv []) (5 * 1)%Q
           (mkState world_no_csv [EvRead "./pwv_tables/modeled_pwv.csv"])
           [("README", [])]); reflexivity.
Defined.

Lemma transmission_empty_series_witness :
  rows (mkTable (D := Q) (V := Q) ["date"; "pwv"] [] []) = []
  /\ transmission (P := utc_platform) (PyDatetime noon) (PyFloat 1.2%Q)
                  (mkState empty_world [])
     = (inl (ValueError "array of sample points is empty"),
        mkState empty_world [EvRead "./pwv_tables/modeled_pwv.csv"]).
Proof.
  split; [reflexivity|].
  apply (transmission_empty_series (P := utc_platform) (PyDatetime noon)
           (PyFloat 1.2%Q) (mkState empty_world [])
           (mkTable ["date"; "pwv"] [] [])); reflexivity.
Defined.

Lemma load_atm_mods_keys_witness :
  exists atm_mods s',
    load_atm_mods (P := utc_platform) (mkState world_4_6 [])
    = (inr atm_mods, s')
    /\ exists entries,
        atm_models (world (mkState world_4_6 [])) = Some entries
        /\ (forall file, In file (csv_files (map fst entries)) ->
                         exists q, level_of (P := utc_platform) file = Some q
                                   /\ InA Qeq q (keys atm_mods))
        /\ (forall k, In k (keys atm_mods) ->
                      exists file, In file (csv_files (map fst entries))
                                   /\ level_of (P := utc_platform) file
                                      = Some k)
        /\ NoDupA Qeq (keys atm_mods).
Proof.
  eexists. eexists. split.
  - apply run_eq. vm_compute. reflexivity.
  - eapply (load_atm_mods_keys (P := utc_platform) (mkState world_4_6 [])).
    vm_compute. reflexivity.
Defined.

Lemma transmission_curve_short_curve_witness :
  py_min (keys atm_mods_short) = Some 4%Q
  /\ dict_get 4%Q atm_mods_short = Some curve_4
  /\ In [(7000%Q, 0.7%Q)] (map snd atm_mods_short)
  /\ (List.length [(7000%Q, 0.7%Q)] < List.length curve_4)%nat
  /\ exists msg,
      transmission_curve atm_mods_short 5%Q
                         (mkState world_4_6 [])
      = (inl (IndexError msg), mkState world_4_6 []).
Proof.
  assert (Hin : In [(7000%Q, 0.7%Q)] (map snd atm_mods_short))
    by (right; left; reflexivity).
  assert (Hlt : (List.length [(7000%Q, 0.7%Q)] < List.length curve_4)%nat)
    by (cbn; lia).
  split; [reflexivity|]. split; [reflexivity|]. split; [exact Hin|].
  split; [exact Hlt|].
  apply (transmission_curve_short_curve atm_mods_short
           5%Q (mkState world_4_6 []) 4%Q curve_4 [(7000%Q, 0.7%Q)]);
    [reflexivity | reflexivity | exact Hin | exact Hlt].
Defined.

Lemma sorted_4_6 : StronglySorted Qlt (keys atm_mods_4_6).
Proof. repeat constructor. Qed.

Lemma transmission_curve_at_level_witness :
  StronglySorted Qlt (keys atm_mods_4_6)
  /\ transmission_curve atm_mods_4_6 4%Q
                        (mkState world_4_6 [])
     = (inr curve_4, mkState world_4_6 [])
  /\ In (4%Q, curve_4) atm_mods_4_6
  /\ (4 == 4)%Q
  /\ nth_error curve_4 1 = Some (7001%Q, 0.8%Q)
  /\ exists v, nth_error (map snd curve_4) 1 = Some v /\ (0.8 == v)%Q.
Proof.
  assert (Hrun : transmission_curve atm_mods_4_6 4%Q
                                    (mkState world_4_6 [])
                 = (inr curve_4, mkState world_4_6 []))
    by (vm_compute; reflexivity).
  split; [exact sorted_4_6|]. split; [exact Hrun|].
  split; [left; reflexivity|]. split; [reflexivity|].
  split; [reflexivity|].
  apply (transmission_curve_at_level atm_mods_4_6 4%Q
           (mkState world_4_6 []) curve_4 (mkState world_4_6 []) 4%Q
           curve_4 sorted_4_6 Hrun (or_introl eq_refl) (Qeq_refl 4%Q)
           1%nat 7001%Q 0.8%Q eq_refl).
Defined.

Lemma transmission_curve_interpolates_witness :
  exists rows z,
    StronglySorted Qlt (keys atm_mods_4_6)
    /\ transmission_curve atm_mods_4_6 5%Q
                          (mkState world_4_6 [])
       = (inr rows, mkState world_4_6 [])
    /\ nth_error rows 0 = Some (7000%Q, z)
    /\ piecewise_linear (samples_at 0 atm_mods_4_6) 5%Q z.
Proof.
  eexists. eexists. split; [exact sorted_4_6|]. split; [|split].
  - apply run_eq. vm_compute. reflexivity.
  - vm_compute. reflexivity.
  - eapply (transmission_curve_interpolates atm_mods_4_6
              5%Q (mkState world_4_6 []) _ (mkState world_4_6 []) sorted_4_6)
      with (i := 0%nat) (w := 7000%Q); vm_compute; reflexivity.
Defined.

(** The series (1000, 5), (2000, 15) on a machine in UTC, at
    1970-01-01 00:33:20, the epoch coordinate 2000 of the second
    sample. *)
Lemma zenith_pwv_on_samples_witness :
  let d := mkdatetime 1970 1 1 0 33 20 in
  let s := mkState (mkWorld None (Some (two_point_model 1000%Q)) None) [] in
  modeled_pwv_csv (world s) = Some (two_point_model 1000%Q)
  /\ rows (two_point_model 1000%Q) <> []
  /\ StronglySorted Qlt (date_col (two_point_model 1000%Q))
  /\ timestamp (Platform := utc_platform) d = 2000%Q
  /\ exists z s',
      zenith_pwv (P := utc_platform) (PyDatetime d) s = (inr z, s')
      /\ (z == 15)%Q.
Proof.
  cbv zeta.
  assert (Hs : StronglySorted Qlt (date_col (two_point_model 1000%Q)))
    by (repeat constructor).
  assert (Hne : rows (two_point_model 1000%Q) <> []) by discriminate.
  split; [reflexivity|]. split; [exact Hne|]. split; [exact Hs|].
  split; [reflexivity|].
  destruct (zenith_pwv_on_samples (P := utc_platform)
              (mkdatetime 1970 1 1 0 33 20)
              (mkState (mkWorld None (Some (two_point_model 1000%Q)) None) [])
              (two_point_model 1000%Q) eq_refl Hne Hs)
    as (z & s' & Hz & Hat).
  exists z, s'. split; [exact Hz|].
  apply (Hat (1000 + 1000)%Q 15%Q); [right; left; reflexivity | reflexivity].
Defined.
